(** * chattool/request.py: URL normalisation and the two API calls

    A shallow embedding of [src/chattool/request.py] and of the parts of the
    Python standard library it calls ([str] methods, [urllib.parse],
    [os.path.join]), followed by the properties of the specification.

    Conventions of the embedding.
    - A Python [str] is a Rocq [string]; a character is a code point below
      256 (Latin-1). Strings with larger code points are outside the model.
    - A Python exception is a value of [exn]; a call that may raise returns a
      [result].
    - [urllib.parse] is modelled after the module of CPython 3.11 (the one
      of release 3.11.4 and later, which strips leading C0 control characters
      and validates bracketed hosts). Two leaves of that module are left as
      parameters of the model: the validation of a bracketed host (it calls
      the [ipaddress] module and a regular expression) and NFKC
      normalisation (it calls [unicodedata]; its result is only compared with
      its argument and searched for five ASCII delimiters). Neither is
      consulted for a network location that is ASCII and has no bracket.
    - [os.path.join] is [posixpath.join] or [ntpath.join], both modelled
      after CPython 3.11; the system is a parameter of the client.
    - The HTTP transport ([requests]) and the JSON codec ([json]) are
      parameters of the client, and each may raise; every request handed to
      the transport is recorded in a log, so that what was sent can be
      stated.
    - A [dict] is a finite map: the order of its keys is not modelled.
    - [chat_completion] is the function with its parameters bound;
      [call_chat_completion] is a call with keyword arguments, which Python
      binds, or refuses, before the body runs. *)

From Stdlib Require Import ZArith NArith Ascii String Bool Lia.
From stdpp Require Import base tactics option strings list gmap.

Set Warnings "-register-all".

(** ** Exceptions and results *)

Inductive exn :=
| ValueError (msg : string)
| TypeError (msg : string)
| AttributeError (msg : string)
| JSONDecodeError (msg : string)
| RequestException (msg : string)
| Exception (detail : string).

Inductive result (A : Type) :=
| Ok (a : A)
| Err (e : exn).
Arguments Ok {A} a.
Arguments Err {A} e.

#[global] Instance result_ret : MRet result := fun A a => Ok a.
#[global] Instance result_bind : MBind result := fun A B f m =>
  match m with
  | Ok a => f a
  | Err e => Err e
  end.

(** ** Python [str] operations *)

Module Str.

(** [s1 + s2] *)
Notation "s1 +++ s2" := (String.append s1 s2)
  (at level 60, right associativity) : stdpp_scope.

(** truth value of a string: non-empty *)
Definition truthy (s : string) : bool :=
  match s with
  | "" => false
  | String _ _ => true
  end.

(** [s[:i]] for [0 <= i] *)
Fixpoint slice_to (i : nat) (s : string) : string :=
  match i, s with
  | S i, String c s => String c (slice_to i s)
  | _, _ => ""
  end.

(** [s[i:]] for [0 <= i] *)
Fixpoint slice_from (i : nat) (s : string) : string :=
  match i, s with
  | S i, String _ s => slice_from i s
  | _, _ => s
  end.

(** [s[i:j]] for [0 <= i], [0 <= j] *)
Definition slice (i j : nat) (s : string) : string :=
  slice_from i (slice_to j s).

(** [s.startswith(p)] *)
Definition startswith (p s : string) : bool := String.prefix p s.

(** [sub in s] *)
Fixpoint contains (sub s : string) : bool :=
  String.prefix sub s ||
  match s with
  | "" => false
  | String _ s' => contains sub s'
  end.

(** [s.find(c)] for a one-character [c]; [None] stands for [-1] *)
Fixpoint find (c : ascii) (s : string) : option nat :=
  match s with
  | "" => None
  | String d s' => if Ascii.eqb d c then Some 0 else S <$> find c s'
  end.

(** [s.find(c, start)] *)
Definition find_from (c : ascii) (start : nat) (s : string) : option nat :=
  (fun i => start + i) <$> find c (slice_from start s).

(** [s.rfind(c)] *)
Fixpoint rfind (c : ascii) (s : string) : option nat :=
  match s with
  | "" => None
  | String d s' =>
      match rfind c s' with
      | Some i => Some (S i)
      | None => if Ascii.eqb d c then Some 0 else None
      end
  end.

(** [s.replace(old, new)] for a non-empty [old]: the occurrences of [old]
    are found from left to right and do not overlap. [skip] counts the
    characters of an occurrence that are still to be dropped. *)
Fixpoint replace_go (old new : string) (skip : nat) (s : string) : string :=
  match s with
  | "" => ""
  | String c s' =>
      match skip with
      | S k => replace_go old new k s'
      | O =>
          if String.prefix old s
          then new +++ replace_go old new (String.length old - 1) s'
          else String c (replace_go old new 0 s')
      end
  end.

(** [s.replace("", new)]: [new] before every character and at the end *)
Fixpoint intersperse (new s : string) : string :=
  match s with
  | "" => new
  | String c s' => new +++ String c (intersperse new s')
  end.

Definition replace (old new s : string) : string :=
  match old with
  | "" => intersperse new s
  | String _ _ => replace_go old new 0 s
  end.

(** [s.lstrip(chars)] *)
Fixpoint lstrip (chars s : string) : string :=
  match s with
  | "" => ""
  | String c s' => if contains (String c "") chars then lstrip chars s' else s
  end.

(** [s.partition(c)] for a one-character separator *)
Definition partition (c : ascii) (s : string) : string * string * string :=
  match find c s with
  | Some i => (slice_to i s, String c "", slice_from (S i) s)
  | None => (s, "", "")
  end.

(** [s.rpartition(c)] for a one-character separator *)
Definition rpartition (c : ascii) (s : string) : string * string * string :=
  match rfind c s with
  | Some i => (slice_to i s, String c "", slice_from (S i) s)
  | None => ("", "", s)
  end.

(** [s.split(c, 1)] when [c in s]: the text before and after the first [c] *)
Definition split1 (c : ascii) (s : string) : string * string :=
  match find c s with
  | Some i => (slice_to i s, slice_from (S i) s)
  | None => (s, "")
  end.

(** [c.isascii()] *)
Definition isascii_char (c : ascii) : bool := (N_of_ascii c <? 128)%N.

(** [s.isascii()] *)
Fixpoint isascii (s : string) : bool :=
  match s with
  | "" => true
  | String c s' => isascii_char c && isascii s'
  end.

(** [c.isascii() and c.isalpha()] *)
Definition is_ascii_alpha (c : ascii) : bool :=
  let n := N_of_ascii c in
  ((65 <=? n) && (n <=? 90) || (97 <=? n) && (n <=? 122))%N.

(** [c.lower()] on Latin-1: A-Z, and the upper-case letters of
    U+00C0..U+00DE (all but the multiplication sign U+00D7) *)
Definition lower_char (c : ascii) : ascii :=
  let n := N_of_ascii c in
  if ((65 <=? n) && (n <=? 90) ||
      (192 <=? n) && (n <=? 222) && negb (n =? 215))%N
  then ascii_of_N (n + 32) else c.

(** [s.lower()] *)
Fixpoint lower (s : string) : string :=
  match s with
  | "" => ""
  | String c s' => String (lower_char c) (lower s')
  end.

(** every character of [s] satisfies [p] *)
Fixpoint all_chars (p : ascii -> bool) (s : string) : bool :=
  match s with
  | "" => true
  | String c s' => p c && all_chars p s'
  end.

End Str.
Import Str.

(** ** [urllib.parse] *)

Definition uses_netloc : list string :=
  [""; "ftp"; "http"; "gopher"; "nntp"; "telnet";
   "imap"; "wais"; "file"; "mms"; "https"; "shttp";
   "snews"; "prospero"; "rtsp"; "rtspu"; "rsync";
   "svn"; "svn+ssh"; "sftp"; "nfs"; "git"; "git+ssh";
   "ws"; "wss"].

Definition uses_params : list string :=
  [""; "ftp"; "hdl"; "prospero"; "http"; "imap";
   "https"; "shttp"; "rtsp"; "rtspu"; "sip"; "sips";
   "mms"; "sftp"; "tel"].

Definition scheme_chars : string :=
  "abcdefghijklmnopqrstuvwxyzABCDEFGHIJKLMNOPQRSTUVWXYZ0123456789+-.".

(** the characters U+0000 .. U+0020 *)
Definition _WHATWG_C0_CONTROL_OR_SPACE : string :=
  string_of_list_ascii (map ascii_of_nat (seq 0 33)).

Definition _UNSAFE_URL_BYTES_TO_REMOVE : list string :=
  [String "009" ""; String "013" ""; String "010" ""].

(** [x in l] for a list of strings *)
Definition in_list (x : string) (l : list string) : bool :=
  bool_decide (x ∈ l).

Record SplitResult := mkSplitResult {
  s_scheme : string;
  s_netloc : string;
  s_path : string;
  s_query : string;
  s_fragment : string
}.

Record ParseResult := mkParseResult {
  scheme : string;
  netloc : string;
  path : string;
  params : string;
  query : string;
  fragment : string
}.

(** [parsed._replace(scheme=s)] *)
Definition _replace_scheme (s : string) (p : ParseResult) : ParseResult :=
  mkParseResult s (netloc p) (path p) (params p) (query p) (fragment p).

Definition _splitparams (url : string) : string * string :=
  if contains "/" url then
    match find_from ";" (default 0 (rfind "/" url)) url with
    | None => (url, "")
    | Some i => (slice_to i url, slice_from (i + 1) url)
    end
  else
    match find ";" url with
    | None => (url, "") (* not reached: the caller checks [';' in url] *)
    | Some i => (slice_to i url, slice_from (i + 1) url)
    end.

(** [_splitnetloc(url, start)]: the earliest of the delimiters [/ ? #] from
    [start] on ends the network location *)
Definition _splitnetloc (url : string) (start : nat) : string * string :=
  let delim :=
    foldl (fun delim c =>
             match find_from c start url with
             | Some wdelim => Nat.min delim wdelim
             | None => delim
             end)
          (String.length url) ["/"; "?"; "#"]%char in
  (slice start delim url, slice_from delim url).

Section urllib.

(** [_check_bracketed_host(hostname)]: passes for an IPv6 or IPvFuture
    address, raises [ValueError] otherwise *)
Variable _check_bracketed_host : string -> result unit.

(** [unicodedata.normalize('NFKC', s)] *)
Variable normalize_NFKC : string -> string.

Definition _check_bracketed_netloc (netloc : string) : result unit :=
  let hostname_and_port := (rpartition "@" netloc).2 in
  let '(before_bracket, have_open_br, bracketed) :=
    partition "[" hostname_and_port in
  if truthy have_open_br then
    if truthy before_bracket then Err (ValueError "Invalid IPv6 URL")
    else
      let '(hostname, _, port) := partition "]" bracketed in
      if truthy port && negb (startswith ":" port)
      then Err (ValueError "Invalid IPv6 URL")
      else _check_bracketed_host hostname
  else
    let '(hostname, _, port) := partition ":" hostname_and_port in
    _check_bracketed_host hostname.

Definition _checknetloc (netloc : string) : result unit :=
  if negb (truthy netloc) || isascii netloc then Ok tt
  else
    let n := replace "@" "" netloc in
    let n := replace ":" "" n in
    let n := replace "#" "" n in
    let n := replace "?" "" n in
    let netloc2 := normalize_NFKC n in
    if String.eqb n netloc2 then Ok tt
    else if existsb (fun c => contains c netloc2) ["/"; "?"; "#"; "@"; ":"]
    then Err (ValueError ("netloc '" +++ netloc +++
                "' contains invalid characters under NFKC normalization"))
    else Ok tt.

(** [urlsplit(url)] with the default [scheme=''] and
    [allow_fragments=True] *)
Definition urlsplit (url : string) : result SplitResult :=
  let url := lstrip _WHATWG_C0_CONTROL_OR_SPACE url in
  let url := foldl (fun url b => replace b "" url) url
                   _UNSAFE_URL_BYTES_TO_REMOVE in
  let '(scheme, url) :=
    match find ":" url with
    | Some i =>
        if (0 <? i) && is_ascii_alpha (default "000"%char (String.get 0 url))
           && all_chars (fun c => contains (String c "") scheme_chars)
                        (slice_to i url)
        then (lower (slice_to i url), slice_from (i + 1) url)
        else ("", url)
    | None => ("", url)
    end in
  '(netloc, url) ←
    (if String.eqb (slice_to 2 url) "//" then
       let '(netloc, url) := _splitnetloc url 2 in
       if contains "[" netloc && negb (contains "]" netloc)
          || contains "]" netloc && negb (contains "[" netloc)
       then Err (ValueError "Invalid IPv6 URL")
       else
         _ ← (if contains "[" netloc && contains "]" netloc
              then _check_bracketed_netloc netloc else Ok tt);
         Ok (netloc, url)
     else Ok ("", url));
  let '(url, fragment) :=
    if contains "#" url then split1 "#" url else (url, "") in
  let '(url, query) :=
    if contains "?" url then split1 "?" url else (url, "") in
  _ ← _checknetloc netloc;
  Ok (mkSplitResult scheme netloc url query fragment).

Definition urlparse (url : string) : result ParseResult :=
  splitresult ← urlsplit url;
  let '(mkSplitResult scheme netloc url query fragment) := splitresult in
  let '(url, params) :=
    if in_list scheme uses_params && contains ";" url
    then _splitparams url
    else (url, "") in
  Ok (mkParseResult scheme netloc url params query fragment).

End urllib.

Definition urlunsplit (components : SplitResult) : string :=
  let '(mkSplitResult scheme netloc url query fragment) := components in
  let url :=
    if truthy netloc ||
       (truthy scheme && in_list scheme uses_netloc
        && negb (String.eqb (slice_to 2 url) "//"))
    then
      let url :=
        if truthy url && negb (String.eqb (slice_to 1 url) "/")
        then "/" +++ url else url in
      "//" +++ netloc +++ url
    else url in
  let url := if truthy scheme then scheme +++ ":" +++ url else url in
  let url := if truthy query then url +++ "?" +++ query else url in
  let url := if truthy fragment then url +++ "#" +++ fragment else url in
  url.

Definition urlunparse (components : ParseResult) : string :=
  let '(mkParseResult scheme netloc url params query fragment) := components in
  let url := if truthy params then url +++ ";" +++ params else url in
  urlunsplit (mkSplitResult scheme netloc url query fragment).

(** ** [request.py]: the URL helpers *)

Section url_helpers.

Variable _check_bracketed_host : string -> result unit.
Variable normalize_NFKC : string -> string.

#[local] Abbreviation urlparse :=
  (urlparse _check_bracketed_host normalize_NFKC).

Definition is_valid_url (url : string) : result bool :=
  parsed_url ← urlparse url;
  Ok (forallb truthy [scheme parsed_url; netloc parsed_url]).

Definition normalize_url (url : string) : result string :=
  let url := replace "\" "/" url in
  parsed_url ← urlparse url;
  let parsed_url :=
    if negb (truthy (scheme parsed_url))
    then _replace_scheme "https" parsed_url
    else parsed_url in
  Ok (replace "///" "//" (urlunparse parsed_url)).

End url_helpers.

(** ** Python values: what [json] produces and [**options] may carry *)

Inductive value :=
| VNone
| VBool (b : bool)
| VInt (z : Z)
| VFloat (literal : string) (* a float, kept as its literal *)
| VStr (s : string)
| VList (l : list value)
| VDict (d : gmap string value).

Definition type_name (v : value) : string :=
  match v with
  | VNone => "NoneType"
  | VBool _ => "bool"
  | VInt _ => "int"
  | VFloat _ => "float"
  | VStr _ => "str"
  | VList _ => "list"
  | VDict _ => "dict"
  end.

(** [v.get(key)]: only a [dict] has the attribute [get] *)
Definition py_get (key : string) (v : value) : result value :=
  match v with
  | VDict d => Ok (default VNone (d !! key))
  | _ => Err (AttributeError
                ("'" +++ type_name v +++ "' object has no attribute 'get'"))
  end.

(** [for x in v]: the elements of a list, the characters of a string, the
    keys of a dict *)
Definition py_iter (v : value) : result (list value) :=
  match v with
  | VList l => Ok l
  | VStr s => Ok ((fun c => VStr (String c "")) <$> list_ascii_of_string s)
  | VDict d => Ok (VStr <$> (map_to_list d).*1)
  | _ => Err (TypeError ("'" +++ type_name v +++ "' object is not iterable"))
  end.

(** [sub in v] for a string [sub]: substring of a string, element of a list,
    key of a dict *)
Definition py_in (sub : string) (v : value) : result bool :=
  match v with
  | VStr s => Ok (contains sub s)
  | VList l =>
      Ok (existsb (fun x => match x with
                            | VStr s => String.eqb s sub
                            | _ => false
                            end) l)
  | VDict d => Ok (bool_decide (is_Some (d !! sub)))
  | _ => Err (TypeError ("argument of type '" +++ type_name v +++
                         "' is not iterable"))
  end.

(** [[f(x) for x in l]]: the first exception ends the comprehension *)
Fixpoint comprehension {A B} (f : A -> result B) (l : list A) : result (list B) :=
  match l with
  | [] => Ok []
  | x :: l' => y ← f x; ys ← comprehension f l'; Ok (y :: ys)
  end.

(** [[x for x in l if p(x)]] *)
Fixpoint comprehension_if {A} (p : A -> result bool) (l : list A) : result (list A) :=
  match l with
  | [] => Ok []
  | x :: l' =>
      b ← p x; ys ← comprehension_if p l'; Ok (if b : bool then x :: ys else ys)
  end.

(** [{k1: v1, ...}]: later keys overwrite earlier ones *)
Definition dict_display {V} (items : list (string * V)) : gmap string V :=
  foldl (fun d kv => <[kv.1 := kv.2]> d) ∅ items.

(** [{**d, **o}]: unpacking [o] after [d]; the entries of [o] overwrite *)
Definition dict_unpack {V} (d o : gmap string V) : gmap string V := o ∪ d.

(** ** [os.path.join]

    [os.path] is [posixpath] on a POSIX system and [ntpath] on Windows. *)

Inductive platform := Posix | Windows.

(** [s.endswith(c)] for a one-character [c] *)
Definition endswith (c : ascii) (s : string) : bool :=
  match rfind c s with
  | Some i => String.length s =? S i
  | None => false
  end.

(** [posixpath.join(a, b)] *)
Definition posixpath_join (a b : string) : string :=
  if startswith "/" b then b
  else if negb (truthy a) || endswith "/" a then a +++ b
  else a +++ "/" +++ b.

(** [c in '\\/'] *)
Definition is_sep (c : ascii) : bool := Ascii.eqb c "\" || Ascii.eqb c "/".

(** [s[-1]], when [s] is not empty *)
Definition last_char (s : string) : option ascii :=
  String.get (String.length s - 1) s.

(** [c.upper()] on Latin-1: a-z, and the lower-case letters of
    U+00E0..U+00FE (all but the division sign U+00F7). The upper case of
    U+00B5, U+00DF and U+00FF is no Latin-1 character (U+039C, [SS],
    U+0178); these three are left as they are, which is all the same to
    the one comparison [upper] serves, with a text that has no [S]. *)
Definition upper_char (c : ascii) : ascii :=
  let n := N_of_ascii c in
  if ((97 <=? n) && (n <=? 122) ||
      (224 <=? n) && (n <=? 254) && negb (n =? 247))%N
  then ascii_of_N (n - 32) else c.

(** [s.upper()] *)
Fixpoint upper (s : string) : string :=
  match s with
  | "" => ""
  | String c s' => String (upper_char c) (upper s')
  end.

(** [ntpath.splitdrive(p)] *)
Definition ntpath_splitdrive (p : string) : string * string :=
  if 2 <=? String.length p then
    let normp := replace "/" "\" p in
    if String.eqb (slice 0 2 normp) "\\" then
      let start :=
        if String.eqb (upper (slice_to 8 normp)) "\\?\UNC\" then 8 else 2 in
      match find_from "\" start normp with
      | None => (p, "")
      | Some index =>
          match find_from "\" (index + 1) normp with
          | None => (p, "")
          | Some index2 => (slice_to index2 p, slice_from index2 p)
          end
      end
    else if String.eqb (slice 1 2 normp) ":"
    then (slice_to 2 p, slice_from 2 p)
    else ("", p)
  else ("", p).

(** [ntpath.join(path, p)] *)
Definition ntpath_join (path p : string) : string :=
  let '(result_drive, result_path) := ntpath_splitdrive path in
  let '(p_drive, p_path) := ntpath_splitdrive p in
  let '(result_drive, result_path) :=
    if truthy p_path && from_option is_sep false (String.get 0 p_path) then
      (* the second path is absolute *)
      (if truthy p_drive || negb (truthy result_drive)
       then p_drive else result_drive,
       p_path)
    else if truthy p_drive && negb (String.eqb p_drive result_drive)
            && negb (String.eqb (lower p_drive) (lower result_drive)) then
      (* different drives: the first path is ignored *)
      (p_drive, p_path)
    else
      let result_drive :=
        if truthy p_drive && negb (String.eqb p_drive result_drive)
        then p_drive else result_drive in
      (* the second path is relative to the first *)
      let result_path :=
        if truthy result_path
           && negb (from_option is_sep false (last_char result_path))
        then result_path +++ "\" else result_path in
      (result_drive, result_path +++ p_path) in
  if truthy result_path
     && negb (from_option is_sep false (String.get 0 result_path))
     && truthy result_drive
     && negb (from_option (Ascii.eqb ":") false (last_char result_drive))
  then result_drive +++ "\" +++ result_path
  else result_drive +++ result_path.

(** [os.path.join(a, b)] *)
Definition os_path_join (os_name : platform) (a b : string) : string :=
  match os_name with
  | Posix => posixpath_join a b
  | Windows => ntpath_join a b
  end.

(** ** The HTTP transport *)

Inductive http_method := GET | POST.

Record request := mkRequest {
  r_method : http_method;
  r_url : string;
  r_headers : gmap string string;
  r_data : option string;
  r_timeout : option Z (* [None]: wait without limit *)
}.

Record response := mkResponse {
  status_code : Z;
  text : string
}.

(** A computation that talks to the transport: the requests it issued, in
    order, and how it ended. *)
Record IO (A : Type) := mkIO {
  calls : list request;
  outcome : result A
}.
Arguments mkIO {A} calls outcome.
Arguments calls {A} i.
Arguments outcome {A} i.

#[global] Instance IO_ret : MRet IO := fun A a => mkIO [] (Ok a).
#[global] Instance IO_bind : MBind IO := fun A B f m =>
  match outcome m with
  | Ok a => mkIO (calls m ++ calls (f a)) (outcome (f a))
  | Err e => mkIO (calls m) (Err e)
  end.

(** a call that does not touch the transport *)
Definition pure {A} (r : result A) : IO A := mkIO [] r.

(** [raise e] *)
Definition raise {A} (e : exn) : IO A := mkIO [] (Err e).

(** ** [request.py]: the API calls *)

(** the parameters of [chat_completion] that a keyword can name *)
Definition chat_completion_parameters : list string :=
  ["api_key"; "chat_url"; "messages"; "model"; "timeout"].

Section client.

Variable _check_bracketed_host : string -> result unit.
Variable normalize_NFKC : string -> string.

(** the system the client runs on *)
Variable os_name : platform.

(** what the server answers to a request, or the exception of the
    transport (connection failure, timeout) *)
Variable transport : request -> result response.

(** [json.dumps], which raises on what it cannot serialise, and
    [json.loads] *)
Variable json_dumps : value -> result string.
Variable json_loads : string -> result value.

#[local] Abbreviation normalize_url :=
  (normalize_url _check_bracketed_host normalize_NFKC).

(** [requests.post(url, headers=headers, data=data, timeout=timeout)] *)
Definition requests_post (url : string) (headers : gmap string string)
    (data : string) (timeout : option Z) : IO response :=
  let r := mkRequest POST url headers (Some data) timeout in
  mkIO [r] (transport r).

(** [requests.get(url, headers=headers)] *)
Definition requests_get (url : string) (headers : gmap string string)
    : IO response :=
  let r := mkRequest GET url headers None None in
  mkIO [r] (transport r).

(** [response.json()] *)
Definition response_json (r : response) : result value :=
  json_loads (text r).

(** [payload = {"model": model, "messages": messages, **options}] *)
Definition payload (messages : list value) (model : string)
    (options : gmap string value) : gmap string value :=
  dict_unpack
    (dict_display [("model", VStr model); ("messages", VList messages)])
    options.

(** The body of [chat_completion], run with its parameters bound:
    [options] is the dict that [**options] has collected. The arguments of
    [requests.post] are evaluated before the call, [json.dumps(payload)]
    among them. *)
Definition chat_completion (api_key chat_url : string)
    (messages : list value) (model : string) (timeout : Z)
    (options : gmap string value) : IO value :=
  let payload := payload messages model options in
  let headers :=
    dict_display [("Content-Type", "application/json");
                  ("Authorization", "Bearer " +++ api_key)] in
  chat_url ← pure (normalize_url chat_url);
  let timeout := if (timeout <=? 0)%Z then None else Some timeout in
  data ← pure (json_dumps (VDict payload));
  response ← requests_post chat_url headers data timeout;
  if negb (status_code response =? 200)%Z
  then raise (Exception (text response))
  else pure (response_json response).

(** The call [chat_completion(api_key, chat_url, messages, model, timeout,
    **kwargs)]: Python binds the keywords before the body runs, and refuses
    a keyword that names a parameter already given; the other keywords are
    what [**options] collects. (Of several such keywords Python names the
    first one passed; a map keeps no order of passing, and the message here
    names the first in the order of the parameters.) *)
Definition bind_options (kwargs : gmap string value)
    : result (gmap string value) :=
  match List.filter (fun k => bool_decide (is_Some (kwargs !! k)))
                    chat_completion_parameters with
  | [] => Ok kwargs
  | k :: _ =>
      Err (TypeError ("chat_completion() got multiple values for argument '"
                      +++ k +++ "'"))
  end.

Definition call_chat_completion (api_key chat_url : string)
    (messages : list value) (model : string) (timeout : Z)
    (kwargs : gmap string value) : IO value :=
  options ← pure (bind_options kwargs);
  chat_completion api_key chat_url messages model timeout options.

Definition valid_models (api_key base_url : string) (gpt_only : bool)
    : IO (list value) :=
  let headers :=
    dict_display [("Authorization", "Bearer " +++ api_key);
                  ("Content-Type", "application/json")] in
  models_url ←
    pure (normalize_url (os_path_join os_name base_url "v1/models"));
  models_response ← requests_get models_url headers;
  if (status_code models_response =? 200)%Z then
    data ← pure (response_json models_response);
    entries ← pure (py_get "data" data ≫= py_iter);
    model_list ← pure (comprehension (py_get "id") entries);
    if gpt_only
    then pure (comprehension_if (py_in "gpt") model_list)
    else mret model_list
  else raise (Exception (text models_response)).

End client.

(** What [valid_models] makes of the parsed body of a 200 answer (the lines
    after [models_response.json()]), as one function of the parse result. *)
Definition models_of (gpt_only : bool) (body : result value)
    : result (list value) :=
  data ← body;
  entries ← py_get "data" data ≫= py_iter;
  model_list ← comprehension (py_get "id") entries;
  if gpt_only then comprehension_if (py_in "gpt") model_list
  else Ok model_list.

(** ** Structural views of the parser

    The parser works with indices ([find], slices). The proofs use the
    following functions, which split a string by recursion on it; each is
    shown below to compute what the indexed code computes. *)

(** the URL as [urlsplit] sees it: after [lstrip] and the removal of tab,
    carriage return and line feed *)
Definition clean (url : string) : string :=
  foldl (fun url b => replace b "" url)
        (lstrip _WHATWG_C0_CONTROL_OR_SPACE url) _UNSAFE_URL_BYTES_TO_REMOVE.

(** one of the characters that end the network location *)
Definition is_delim (c : ascii) : bool :=
  Ascii.eqb c "/" || Ascii.eqb c "?" || Ascii.eqb c "#".

(** the text before the first [c], and the text after it *)
Fixpoint cut (c : ascii) (s : string) : option (string * string) :=
  match s with
  | "" => None
  | String d s' =>
      if Ascii.eqb d c then Some ("", s')
      else
        match cut c s' with
        | Some (a, b) => Some (String d a, b)
        | None => None
        end
  end.

(** the longest prefix without [/ ? #], and the rest *)
Fixpoint span_netloc (s : string) : string * string :=
  match s with
  | "" => ("", "")
  | String c s' =>
      if is_delim c then ("", s)
      else let '(n, t) := span_netloc s' in (String c n, t)
  end.

(** the split at the first [;] that no [/] follows *)
Fixpoint psplit (s : string) : option (string * string) :=
  match s with
  | "" => None
  | String c s' =>
      if Ascii.eqb c ";" && negb (contains "/" s') then Some ("", s')
      else
        match psplit s' with
        | Some (a, b) => Some (String c a, b)
        | None => None
        end
  end.

(** what [urlsplit] asks of the text before the first colon to take it as
    the scheme *)
Definition scheme_ok (a : string) : bool :=
  truthy a && is_ascii_alpha (default "000"%char (String.get 0 a))
  && all_chars (fun c => contains (String c "") scheme_chars) a.

(** the scheme (in lower case) and the text after its colon; without a
    scheme, the empty string and the whole text *)
Definition split_scheme (y : string) : string * string :=
  match cut ":" y with
  | Some (a, b) => if scheme_ok a then (lower a, b) else ("", y)
  | None => ("", y)
  end.

(** the checks [urlsplit] makes on a network location found after [//] *)
Definition netloc_checks (_check_bracketed_host : string -> result unit)
    (normalize_NFKC : string -> string) (n : string) : result unit :=
  if contains "[" n && negb (contains "]" n)
     || contains "]" n && negb (contains "[" n)
  then Err (ValueError "Invalid IPv6 URL")
  else
    _ ← (if contains "[" n && contains "]" n
         then _check_bracketed_netloc _check_bracketed_host n else Ok tt);
    _checknetloc normalize_NFKC n.

(** path, parameters, query and fragment of the text [t] that follows the
    network location, for the scheme [sch] *)
Definition split_tail (sch t : string) : string * string * string * string :=
  let '(a, f) := default (t, "") (cut "#" t) in
  let '(b, q) := default (a, "") (cut "?" a) in
  let '(pth, prm) :=
    if in_list sch uses_params then default (b, "") (psplit b) else (b, "") in
  (pth, prm, q, f).

(** [c + x] when [x] is not empty *)
Definition opt (c : ascii) (x : string) : string :=
  if truthy x then String c x else "".

(** the four components put together again *)
Definition join_tail (c : string * string * string * string) : string :=
  let '(pth, prm, q, f) := c in
  pth +++ opt ";" prm +++ opt "?" q +++ opt "#" f.

(** [replace "///" "//"] on both parts of a split *)
Definition collapse2 (ab : string * string) : string * string :=
  (replace "///" "//" ab.1, replace "///" "//" ab.2).

(** the text after a network location is empty or starts with [/ ? #] *)
Definition tail_ok (t : string) : bool :=
  match t with
  | "" => true
  | String c _ => is_delim c
  end.

(** not one of the characters [urlsplit] removes *)
Definition safe_char (c : ascii) : bool :=
  negb (Ascii.eqb c "009") && negb (Ascii.eqb c "013")
  && negb (Ascii.eqb c "010").

(** the URL that [normalize_url] reassembles, before the last [replace] *)
Definition reassembled (_check_bracketed_host : string -> result unit)
    (normalize_NFKC : string -> string) (url : string) : result string :=
  parsed_url ← urlparse _check_bracketed_host normalize_NFKC
                 (replace "\" "/" url);
  Ok (urlunparse (if negb (truthy (scheme parsed_url))
                  then _replace_scheme "https" parsed_url
                  else parsed_url)).

(** [normalize(normalize(url))] *)
Definition normalize_twice (_check_bracketed_host : string -> result unit)
    (normalize_NFKC : string -> string) (url : string) : result string :=
  normalize_url _check_bracketed_host normalize_NFKC url
    ≫= normalize_url _check_bracketed_host normalize_NFKC.

(** ** Test doubles

    A fixed environment for closed examples: a POSIX system, no bracketed
    host is accepted, NFKC normalisation is the identity (as it is on ASCII
    text), a serialiser that returns, and a server with a handful of canned
    answers. *)

Module Mock.

Definition bracketed_host : string -> result unit :=
  fun _ => Err (ValueError "not an IPv6 or IPvFuture address").

Definition nfkc : string -> string := fun s => s.

(** a double quote, and a quoted word *)
Definition dq : string := String (ascii_of_nat 34) "".
Definition q (s : string) : string := dq +++ s +++ dq.

Definition chat_body : string := "{" +++ q "id" +++ ":" +++ q "x" +++ "}".

Definition models_body : string :=
  "{" +++ q "data" +++ ":[{" +++ q "id" +++ ":" +++ q "gpt-4" +++ "},{"
      +++ q "id" +++ ":" +++ q "text-embed" +++ "}]}".

Definition broken_models_body : string :=
  "{" +++ q "data" +++ ":[{" +++ q "id" +++ ":" +++ q "gpt-4" +++ "},{"
      +++ q "object" +++ ":" +++ q "model" +++ "}]}".

Definition transport (r : request) : result response :=
  match r_method r with
  | POST =>
      if String.eqb (r_url r) "https://api.example.com/v1/chat/completions"
      then Ok (mkResponse 200 chat_body)
      else Ok (mkResponse 400 "bad request")
  | GET =>
      if String.eqb (r_url r) "https://api.example.com/v1/models"
      then Ok (mkResponse 200 models_body)
      else if String.eqb (r_url r) "https://broken.example.com/v1/models"
      then Ok (mkResponse 200 broken_models_body)
      else Ok (mkResponse 404 "not found")
  end.

Definition json_dumps (v : value) : string := "{}".

(** [json.dumps] as the client calls it; here it always returns *)
Definition dumps (v : value) : result string := Ok (json_dumps v).

Definition json_loads (s : string) : result value :=
  if String.eqb s chat_body then
    Ok (VDict {["id" := VStr "x"]})
  else if String.eqb s models_body then
    Ok (VDict {["data" := VList [VDict {["id" := VStr "gpt-4"]};
                                 VDict {["id" := VStr "text-embed"]}]]})
  else if String.eqb s broken_models_body then
    Ok (VDict {["data" := VList [VDict {["id" := VStr "gpt-4"]};
                                 VDict {["object" := VStr "model"]}]]})
  else Err (JSONDecodeError "Expecting value").

(** the requests the two calls send with the key ["key"] *)
Definition chat_request (url : string) (timeout : option Z) : request :=
  mkRequest POST url
    (dict_display [("Content-Type", "application/json");
                   ("Authorization", "Bearer key")])
    (Some "{}") timeout.

Definition models_request (url : string) : request :=
  mkRequest GET url
    (dict_display [("Authorization", "Bearer key");
                   ("Content-Type", "application/json")])
    None None.

Definition normalize_url := normalize_url bracketed_host nfkc.
Definition urlparse := urlparse bracketed_host nfkc.
Definition chat_completion :=
  chat_completion bracketed_host nfkc transport dumps json_loads.
Definition call_chat_completion :=
  call_chat_completion bracketed_host nfkc transport dumps json_loads.
Definition valid_models :=
  valid_models bracketed_host nfkc Posix transport json_loads.
Definition reassembled := reassembled bracketed_host nfkc.
Definition normalize_twice := normalize_twice bracketed_host nfkc.

End Mock.

(** [isinstance(v, dict)] *)
Definition is_dict (v : value) : bool :=
  match v with
  | VDict _ => true
  | _ => false
  end.

(** [c in _WHATWG_C0_CONTROL_OR_SPACE] *)
Definition blank_char (c : ascii) : bool :=
  contains (String c "") _WHATWG_C0_CONTROL_OR_SPACE.

(** an ASCII character other than the two square brackets *)
Definition plain_char (c : ascii) : bool :=
  isascii_char c && negb (Ascii.eqb c "[") && negb (Ascii.eqb c "]").

(** a character above U+0020 that is none of [\ : ; ? #] *)
Definition host_char (c : ascii) : bool :=
  negb (blank_char c)
  && negb (existsb (Ascii.eqb c) ["\"; ":"; ";"; "?"; "#"]%char).


(** a path that starts with no separator and has no colon in second
    place: on Windows, a path without drive *)
Definition no_drive (p : string) : bool :=
  negb (from_option is_sep false (String.get 0 p))
  && negb (from_option (Ascii.eqb ":") false (String.get 1 p)).

(** Further doubles: a server with one answer for every request, a
    transport without connection, a codec with one result, and a
    serialiser that raises. *)

Module Stub.

Definition answer (resp : response) : request -> result response :=
  fun _ => Ok resp.

Definition offline : request -> result response :=
  fun _ => Err (RequestException "connection refused").

Definition parsed (v : result value) : string -> result value :=
  fun _ => v.

(** [json.dumps] on a payload it cannot serialise *)
Definition unserialisable : value -> result string :=
  fun _ => Err (TypeError "Object of type bytes is not JSON serializable").

End Stub.

(** * Properties *)

Lemma result_bind_unfold {A B} (m : result A) (f : A -> result B) :
  m ≫= f = match m with Ok a => f a | Err e => Err e end.
Proof. reflexivity. Qed.

(** ** Strings *)

Section string_facts.

#[local] Arguments String.append !s1 s2 : simpl nomatch.

Lemma app_nil_r (s : string) : s +++ "" = s.
Proof. induction s; simpl; congruence. Qed.

Lemma app_assoc (a b c : string) : (a +++ b) +++ c = a +++ b +++ c.
Proof. induction a; simpl; congruence. Qed.

Lemma slice_to_from i s : slice_to i s +++ slice_from i s = s.
Proof.
  revert s; induction i as [|i IH]; intros [|c s]; simpl; try done.
  by rewrite IH.
Qed.

Lemma all_chars_app p a b :
  all_chars p (a +++ b) = all_chars p a && all_chars p b.
Proof. induction a; simpl; [done|]. by rewrite IHa, andb_assoc. Qed.

Lemma all_chars_slice p i s :
  all_chars p s = true ->
  all_chars p (slice_to i s) = true /\ all_chars p (slice_from i s) = true.
Proof.
  intros H. rewrite <- (slice_to_from i s), all_chars_app in H.
  by apply andb_true_iff in H.
Qed.

Lemma all_chars_lower p s :
  (forall c, contains (String c "") scheme_chars = true ->
             p (lower_char c) = true) ->
  all_chars (fun c => contains (String c "") scheme_chars) s = true ->
  all_chars p (lower s) = true.
Proof.
  intros Hp. induction s as [|c s IH]; simpl; [done|].
  intros [Hc Hs]%andb_true_iff. by rewrite Hp, IH.
Qed.

Lemma all_chars_impl (p q : ascii -> bool) s :
  (forall c, p c = true -> q c = true) ->
  all_chars p s = true -> all_chars q s = true.
Proof.
  intros Hpq. induction s as [|c s IH]; simpl; [done|].
  intros [Hc Hs]%andb_true_iff. by rewrite Hpq, IH.
Qed.

(** *** [in] for one character *)

Lemma prefix_nil s : String.prefix "" s = true.
Proof. by destruct s. Qed.

Lemma prefix_cons c p d s :
  String.prefix (String c p) (String d s) = Ascii.eqb c d && String.prefix p s.
Proof.
  cbn [String.prefix]. destruct (ascii_dec c d) as [->|Hne].
  - by rewrite Ascii.eqb_refl.
  - by apply Ascii.eqb_neq in Hne as ->.
Qed.

Lemma prefix_char c s :
  String.prefix (String c "") s =
    match s with
    | "" => false
    | String d _ => Ascii.eqb c d
    end.
Proof.
  destruct s as [|d s]; simpl; [done|].
  destruct (ascii_dec c d) as [->|Hne].
  - rewrite Ascii.eqb_refl. by destruct s.
  - by apply Ascii.eqb_neq in Hne as ->.
Qed.

Lemma contains_char c s :
  contains (String c "") s = negb (all_chars (fun d => negb (Ascii.eqb d c)) s).
Proof.
  induction s as [|d s IH]; [done|].
  cbn [contains all_chars]. rewrite prefix_char, IH, Ascii.eqb_sym.
  by destruct (Ascii.eqb d c).
Qed.

Lemma contains_char_false c s :
  contains (String c "") s = false
  <-> all_chars (fun d => negb (Ascii.eqb d c)) s = true.
Proof. rewrite contains_char. by destruct (all_chars _ s). Qed.

Lemma contains_char_app c a b :
  contains (String c "") (a +++ b)
    = contains (String c "") a || contains (String c "") b.
Proof.
  rewrite !contains_char, all_chars_app. by destruct (all_chars _ a).
Qed.

Lemma contains_suffix sub a b :
  contains sub (a +++ b) = false -> contains sub b = false.
Proof.
  induction a as [|c a IH]; simpl; [done|].
  intros [_ H]%orb_false_iff. by apply IH.
Qed.

(** *** [find] and the slices around the position found *)

Lemma find_cut c s :
  match find c s with
  | Some i => cut c s = Some (slice_to i s, slice_from (S i) s)
  | None => cut c s = None
  end.
Proof.
  induction s as [|d s IH]; simpl; [done|].
  destruct (Ascii.eqb d c); simpl; [done|].
  destruct (find c s) as [i|]; simpl; by rewrite IH.
Qed.

Lemma cut_Some c s a b :
  cut c s = Some (a, b) ->
  s = a +++ String c b /\ contains (String c "") a = false.
Proof.
  revert a. induction s as [|d s IH]; intros a; simpl; [done|].
  destruct (Ascii.eqb_spec d c) as [->|Hne].
  - by intros [= <- <-].
  - destruct (cut c s) as [[a' b']|]; [|done]. intros [= <- <-].
    destruct (IH a' eq_refl) as [-> Ha]. split; [done|].
    cbn [contains]. rewrite prefix_char, Ha, orb_false_r.
    apply Ascii.eqb_neq. congruence.
Qed.

Lemma cut_None c s : cut c s = None <-> contains (String c "") s = false.
Proof.
  induction s as [|d s IH]; [done|]. cbn [cut contains].
  rewrite prefix_char, (Ascii.eqb_sym c d).
  destruct (Ascii.eqb d c); simpl; [done|].
  destruct (cut c s) as [[a b]|]; [|tauto].
  split; [done|]. intros H. by apply IH in H.
Qed.

Lemma cut_app c a b :
  contains (String c "") a = false -> cut c (a +++ String c b) = Some (a, b).
Proof.
  induction a as [|d a IH].
  - simpl. by rewrite Ascii.eqb_refl.
  - cbn [contains String.append cut]. rewrite prefix_char, (Ascii.eqb_sym c d).
    destruct (Ascii.eqb d c); simpl; [done|]. intros H. by rewrite IH.
Qed.

Lemma split1_cut c s :
  (if contains (String c "") s then split1 c s else (s, ""))
    = default (s, "") (cut c s).
Proof.
  unfold split1. pose proof (find_cut c s) as H.
  destruct (find c s) as [i|].
  - rewrite H. simpl.
    destruct (contains _ s) eqn:Hc; [done|].
    apply cut_None in Hc. congruence.
  - rewrite H. simpl. by destruct (contains _ s).
Qed.

(** *** [replace] *)

Lemma replace_go_skip old new k s :
  replace_go old new k s = replace_go old new 0 (slice_from k s).
Proof.
  revert k. induction s as [|c s IH]; intros [|k]; try done.
  cbn [replace_go slice_from]. apply IH.
Qed.

Lemma all_chars_replace_go p old new k s :
  all_chars p new = true -> all_chars p s = true ->
  all_chars p (replace_go old new k s) = true.
Proof.
  intros Hnew. revert k. induction s as [|c s IH]; intros k; [done|].
  cbn [all_chars replace_go]. intros [Hc Hs]%andb_true_iff.
  destruct k as [|k]; [|by apply IH].
  destruct (String.prefix old _).
  - by rewrite all_chars_app, Hnew, IH.
  - cbn [all_chars]. by rewrite Hc, IH.
Qed.

Lemma all_chars_replace p old new s :
  old <> "" -> all_chars p new = true -> all_chars p s = true ->
  all_chars p (replace old new s) = true.
Proof.
  destruct old; [done|]. intros _. apply all_chars_replace_go.
Qed.

(** replacing one character *)
Lemma replace_char_cons c new d s :
  replace (String c "") new (String d s) =
    if Ascii.eqb d c then new +++ replace (String c "") new s
    else String d (replace (String c "") new s).
Proof.
  unfold replace. cbn [replace_go]. rewrite prefix_char, Ascii.eqb_sym.
  reflexivity.
Qed.

Lemma replace_char_absent c new s :
  contains (String c "") s = false -> replace (String c "") new s = s.
Proof.
  rewrite contains_char_false.
  induction s as [|d s IH]; [done|]. cbn [all_chars].
  intros [Hd Hs]%andb_true_iff. rewrite replace_char_cons.
  apply negb_true_iff in Hd as ->. by rewrite IH.
Qed.

Lemma replace_char_gone c new s :
  contains (String c "") new = false ->
  contains (String c "") (replace (String c "") new s) = false.
Proof.
  intros Hnew. induction s as [|d s IH]; [done|].
  rewrite replace_char_cons. destruct (Ascii.eqb d c) eqn:Hd.
  - by rewrite contains_char_app, Hnew, IH.
  - cbn [contains]. by rewrite prefix_char, Ascii.eqb_sym, Hd, IH.
Qed.

Lemma replace_go_0 old new c s :
  replace_go old new 0 (String c s) =
    if String.prefix old (String c s)
    then new +++ replace_go old new 0 (slice_from (String.length old - 1) s)
    else String c (replace_go old new 0 s).
Proof. cbn [replace_go]. by rewrite replace_go_skip. Qed.

(** the last step of [normalize_url], as a recursion on the string *)
Lemma collapse_triple s :
  replace "///" "//" ("///" +++ s) = "//" +++ replace "///" "//" s.
Proof.
  change ("///" +++ s) with (String "/" (String "/" (String "/" s))).
  unfold replace. rewrite replace_go_0, !prefix_cons, prefix_nil. reflexivity.
Qed.

Lemma collapse_triple_cons s :
  replace "///" "//" (String "/" (String "/" (String "/" s)))
    = String "/" (String "/" (replace "///" "//" s)).
Proof. apply collapse_triple. Qed.

Lemma collapse_other c s :
  String.prefix "///" (String c s) = false ->
  replace "///" "//" (String c s) = String c (replace "///" "//" s).
Proof. unfold replace. cbn [replace_go]. by intros ->. Qed.

Lemma prefix_triple s :
  String.prefix "///" s = true -> exists t, s = "///" +++ t.
Proof.
  intros H. apply prefix_correct in H. simpl in H.
  exists (slice_from 3 s).
  destruct s as [|c1 [|c2 [|c3 s]]]; try done. by injection H as -> -> ->.
Qed.

(** induction along the scan of [replace "///" "//"] *)
Lemma collapse_ind (P : string -> string -> Prop) :
  P "" "" ->
  (forall s, P s (replace "///" "//" s) ->
             P ("///" +++ s) ("//" +++ replace "///" "//" s)) ->
  (forall c s, String.prefix "///" (String c s) = false ->
               P s (replace "///" "//" s) ->
               P (String c s) (String c (replace "///" "//" s))) ->
  forall s, P s (replace "///" "//" s).
Proof.
  intros Hnil Htriple Hother s.
  assert (forall n s, String.length s <= n -> P s (replace "///" "//" s))
    as H; [|by apply (H (String.length s))].
  clear s. induction n as [|n IH]; intros [|c s] Hlen; simpl in Hlen;
    try done; try lia.
  destruct (String.prefix "///" (String c s)) eqn:Hp.
  - apply prefix_triple in Hp as [t Ht]. rewrite Ht, collapse_triple.
    apply Htriple, IH. apply (f_equal String.length) in Ht.
    simpl in Ht. lia.
  - rewrite collapse_other by done. apply Hother; [done|]. apply IH. lia.
Qed.

Lemma collapse_head c s :
  exists t, replace "///" "//" (String c s) = String c t.
Proof.
  destruct (String.prefix "///" (String c s)) eqn:Hp.
  - apply prefix_triple in Hp as [t Ht]. rewrite Ht, collapse_triple.
    injection Ht as -> _. simpl. eauto.
  - rewrite collapse_other by done. eauto.
Qed.


Lemma prefix_double_collapse s :
  String.prefix "//" (replace "///" "//" s) = true ->
  String.prefix "//" s = true.
Proof.
  destruct s as [|c s]; [done|].
  destruct (String.prefix "///" (String c s)) eqn:Hp.
  - apply prefix_triple in Hp as [t ->]. done.
  - rewrite collapse_other by done.
    destruct s as [|d s]; [done|]. destruct (collapse_head d s) as [t ->].
    by rewrite !prefix_cons, !prefix_nil.
Qed.

(** Without a run of four slashes in the string, no triple slash is left. *)
Lemma collapse_no_triple s :
  contains "////" s = false ->
  contains "///" (replace "///" "//" s) = false.
Proof.
  apply (collapse_ind (fun s o =>
           contains "////" s = false -> contains "///" o = false)); clear s.
  - done.
  - intros s IH H4.
    assert (contains "////" s = false) as Hs
      by apply (contains_suffix _ "///" _ H4).
    specialize (IH Hs).
    destruct s as [|c s]; [done|].
    assert (Ascii.eqb "/" c = false) as Hhead.
    { cbn [contains String.append] in H4.
      apply orb_false_iff in H4 as [H4 _].
      rewrite !prefix_cons, prefix_nil, andb_true_r in H4. apply H4. }
    destruct (collapse_head c s) as [t Ht]. rewrite Ht in *.
    cbn [String.append contains]. cbn [contains] in IH. rewrite IH.
    by rewrite !prefix_cons, Hhead, !andb_false_r.
  - intros c s Hp IH H4. cbn [contains] in H4 |- *.
    apply orb_false_iff in H4 as [_ H4]. rewrite (IH H4), orb_false_r.
    destruct (String.prefix "///" (String c (replace "///" "//" s)))
      eqn:Hp'; [|done].
    exfalso. rewrite prefix_cons in Hp'.
    apply andb_true_iff in Hp' as [Hc Hp'].
    apply prefix_double_collapse in Hp'.
    destruct s as [|d s]; [done|].
    rewrite prefix_cons, Hc, Hp' in Hp. done.
Qed.

(** Without a triple slash in the string, nothing is replaced. *)
Lemma collapse_id s :
  contains "///" s = false -> replace "///" "//" s = s.
Proof.
  induction s as [|c s IH]; [done|]. cbn [contains].
  intros [Hp Hs]%orb_false_iff. rewrite collapse_other by done.
  by rewrite IH.
Qed.


(** *** The indexed splits of [urllib.parse] and their structural views *)

Lemma slice_to_2 s :
  String.eqb (slice_to 2 s) "//" = String.prefix "//" s.
Proof.
  destruct s as [|c [|d s]]; try done.
  - rewrite prefix_cons. cbn. rewrite andb_false_r. by destruct (Ascii.eqb c "/").
  - rewrite !prefix_cons, prefix_nil, andb_true_r. cbn [slice_to String.eqb].
    rewrite (Ascii.eqb_sym c), (Ascii.eqb_sym d).
    destruct (Ascii.eqb "/" c), (Ascii.eqb "/" d); try done.
Qed.

Lemma slice_to_1 s :
  String.eqb (slice_to 1 s) "/" = String.prefix "/" s.
Proof.
  destruct s as [|c s]; [done|].
  rewrite !prefix_cons, prefix_nil, andb_true_r. cbn [slice_to String.eqb].
  rewrite (Ascii.eqb_sym c). by destruct (Ascii.eqb "/" c).
Qed.

Lemma prefix_double s :
  String.prefix "//" s = true -> s = "//" +++ slice_from 2 s.
Proof.
  destruct s as [|c [|d s]]; try done.
  - rewrite prefix_cons. by destruct (Ascii.eqb "/" c).
  - rewrite !prefix_cons.
    intros [->%Ascii.eqb_eq [->%Ascii.eqb_eq _]%andb_true_iff]%andb_true_iff.
    done.
Qed.

Lemma span_netloc_app s n t :
  span_netloc s = (n, t) ->
  s = n +++ t
  /\ all_chars (fun c => negb (is_delim c)) n = true
  /\ match t with "" => True | String c _ => is_delim c = true end.
Proof.
  revert n. induction s as [|c s IH]; intros n; cbn [span_netloc].
  - by intros [= <- <-].
  - destruct (is_delim c) eqn:Hc.
    + intros [= <- <-]. by rewrite Hc.
    + destruct (span_netloc s) as [n' t']. intros [= <- <-].
      destruct (IH n' eq_refl) as (-> & Hn & Ht).
      cbn [all_chars]. by rewrite Hc, Hn.
Qed.

Lemma span_netloc_of_app n t :
  all_chars (fun c => negb (is_delim c)) n = true ->
  match t with "" => True | String c _ => is_delim c = true end ->
  span_netloc (n +++ t) = (n, t).
Proof.
  intros Hn Ht. induction n as [|c n IH]; simpl.
  - destruct t as [|c t]; [done|]. cbn [span_netloc]. by rewrite Ht.
  - cbn [all_chars] in Hn. apply andb_true_iff in Hn as [Hc Hn].
    apply negb_true_iff in Hc. by rewrite Hc, IH.
Qed.

Lemma _splitnetloc_offset s (l : list ascii) a :
  foldl (fun delim c =>
           match find_from c 2 ("//" +++ s) with
           | Some wdelim => Nat.min delim wdelim
           | None => delim
           end) (2 + a) l
  = 2 + foldl (fun delim c =>
                 match find c s with
                 | Some wdelim => Nat.min delim wdelim
                 | None => delim
                 end) a l.
Proof.
  revert a. induction l as [|c l IH]; intros a; [done|].
  cbn [foldl]. unfold find_from at 2. cbn [slice_from String.append].
  destruct (find c s) as [w|]; cbn [fmap option_fmap option_map].
  - change (Nat.min (2 + a) (2 + w)) with (2 + Nat.min a w). apply IH.
  - apply IH.
Qed.

Lemma _splitnetloc_min s :
  let d := foldl (fun delim c =>
                    match find c s with
                    | Some wdelim => Nat.min delim wdelim
                    | None => delim
                    end) (String.length s) ["/"; "?"; "#"]%char in
  (slice_to d s, slice_from d s) = span_netloc s.
Proof.
  induction s as [|c s IH]; [done|].
  cbn [foldl find String.length span_netloc] in *. unfold is_delim.
  destruct (span_netloc s) as [n t].
  destruct (Ascii.eqb c "/"), (Ascii.eqb c "?"), (Ascii.eqb c "#"),
    (find "/" s), (find "?" s), (find "#" s); cbn in *; try done;
    by injection IH as -> ->.
Qed.

Lemma _splitnetloc_span s : _splitnetloc ("//" +++ s) 2 = span_netloc s.
Proof.
  unfold _splitnetloc.
  change (String.length ("//" +++ s)) with (2 + String.length s).
  rewrite _splitnetloc_offset. unfold slice.
  cbn [Nat.add slice_to slice_from String.append]. apply _splitnetloc_min.
Qed.

Lemma rfind_None c s : rfind c s = None <-> contains (String c "") s = false.
Proof.
  induction s as [|d s IH]; [done|]. cbn [rfind contains].
  rewrite prefix_char, (Ascii.eqb_sym c).
  destruct (rfind c s) as [i|].
  - split; [done|]. intros [_ H]%orb_false_iff. by apply IH in H.
  - destruct IH as [IH _]. rewrite (IH eq_refl), orb_false_r.
    by destruct (Ascii.eqb d c).
Qed.

Lemma psplit_no_slash s : contains "/" s = false -> psplit s = cut ";" s.
Proof.
  induction s as [|c s IH]; [done|]. cbn [contains psplit cut].
  intros [_ Hs]%orb_false_iff. by rewrite Hs, andb_true_r, IH.
Qed.

Lemma psplit_slash s :
  contains "/" s = true ->
  psplit s =
    match find_from ";" (default 0 (rfind "/" s)) s with
    | Some i => Some (slice_to i s, slice_from (i + 1) s)
    | None => None
    end.
Proof.
  induction s as [|c s IH]; [done|]. intros Hc. cbn [rfind psplit].
  destruct (rfind "/" s) as [i|] eqn:Hr.
  - assert (contains "/" s = true) as Hs.
    { destruct (contains "/" s) eqn:Hs; [done|].
      apply rfind_None in Hs. congruence. }
    rewrite Hs, andb_false_r, (IH Hs). cbn [default from_option id].
    unfold find_from. cbn [slice_from].
    destruct (find ";" (slice_from i s)) as [j|];
      cbn [fmap option_fmap option_map]; [|done].
    by rewrite <- !plus_n_Sm.
  - apply rfind_None in Hr as Hs. rewrite (psplit_no_slash _ Hs).
    cbn [contains] in Hc. rewrite prefix_char, Hs, orb_false_r in Hc.
    apply Ascii.eqb_eq in Hc as <-. cbn [Ascii.eqb andb Bool.eqb].
    cbn [default from_option id].
    unfold find_from. cbn [slice_from find Ascii.eqb Bool.eqb].
    pose proof (find_cut ";" s) as H.
    destruct (find ";" s) as [j|]; rewrite H;
      cbn [fmap option_fmap option_map Nat.add slice_to]; [|done].
    by rewrite Nat.add_1_r.
Qed.

Lemma _splitparams_psplit url :
  _splitparams url = default (url, "") (psplit url).
Proof.
  unfold _splitparams. destruct (contains "/" url) eqn:Hs.
  - rewrite (psplit_slash _ Hs). by destruct (find_from _ _ _).
  - rewrite (psplit_no_slash _ Hs). pose proof (find_cut ";" url) as H.
    destruct (find ";" url) as [j|]; rewrite H; [|done].
    by rewrite Nat.add_1_r.
Qed.

Lemma psplit_Some s a b : psplit s = Some (a, b) -> s = a +++ String ";" b.
Proof.
  revert a. induction s as [|c s IH]; intros a; [done|]. cbn [psplit].
  destruct (Ascii.eqb_spec c ";") as [->|_]; cbn [andb].
  - destruct (negb (contains "/" s)); [by intros [= <- <-]|].
    destruct (psplit s) as [[a' b']|]; [|done]. intros [= <- <-].
    by rewrite (IH a' eq_refl).
  - destruct (psplit s) as [[a' b']|]; [|done]. intros [= <- <-].
    by rewrite (IH a' eq_refl).
Qed.

(** *** [replace "///" "//"] and the splits commute *)

Lemma collapse_prefix a b :
  contains "/" a = false ->
  replace "///" "//" (a +++ b) = a +++ replace "///" "//" b.
Proof.
  induction a as [|c a IH]; [done|]. cbn [contains String.append].
  rewrite prefix_char. intros [Hc Ha]%orb_false_iff.
  rewrite collapse_other, IH; [done..|].
  destruct (a +++ b); by rewrite ?prefix_cons, ?Hc.
Qed.

Lemma prefix_triple_app a c b :
  Ascii.eqb "/" c = false ->
  String.prefix "///" (a +++ String c b) = String.prefix "///" a.
Proof.
  intros Hc. destruct a as [|c1 [|c2 [|c3 a]]]; cbn [String.append];
    rewrite ?prefix_cons, ?prefix_nil, ?Hc, ?andb_false_r; try done.
  all: cbn [String.prefix]; by repeat destruct (ascii_dec _ _).
Qed.



Lemma contains_char_collapse c s :
  contains (String c "") (replace "///" "//" s) = contains (String c "") s.
Proof.
  apply (collapse_ind (fun s o =>
           contains (String c "") o = contains (String c "") s)); clear s.
  - done.
  - intros s IH. cbn [String.append contains].
    rewrite !prefix_char, IH. by destruct (Ascii.eqb c "/").
  - intros d s _ IH. cbn [contains]. by rewrite !prefix_char, IH.
Qed.

Lemma cut_collapse c s :
  Ascii.eqb "/" c = false ->
  cut c (replace "///" "//" s) = collapse2 <$> cut c s.
Proof.
  intros Hc.
  apply (collapse_ind (fun s o => cut c o = collapse2 <$> cut c s)); clear s.
  - done.
  - intros s IH. cbn [String.append cut]. rewrite Hc, IH.
    destruct (cut c s) as [[a b]|]; [|done].
    cbn [fmap option_fmap option_map]. unfold collapse2. cbn [fst snd].
    by rewrite collapse_triple_cons.
  - intros d s Hp IH. cbn [cut]. destruct (Ascii.eqb d c); [done|].
    rewrite IH. destruct (cut c s) as [[a b]|] eqn:Hcut; [|done].
    cbn [fmap option_fmap option_map]. unfold collapse2. cbn [fst snd].
    rewrite (collapse_other d a); [done|].
    apply cut_Some in Hcut as [-> _].
    change (String d (a +++ String c b)) with (String d a +++ String c b) in Hp.
    by rewrite prefix_triple_app in Hp.
Qed.

Lemma psplit_collapse s :
  psplit (replace "///" "//" s) = collapse2 <$> psplit s.
Proof.
  apply (collapse_ind (fun s o => psplit o = collapse2 <$> psplit s)); clear s.
  - done.
  - intros s IH. cbn [String.append psplit contains]. cbn [Ascii.eqb Bool.eqb andb].
    rewrite IH. destruct (psplit s) as [[a b]|]; [|done].
    cbn [fmap option_fmap option_map]. unfold collapse2. cbn [fst snd].
    by rewrite collapse_triple_cons.
  - intros d s Hp IH. cbn [psplit]. rewrite contains_char_collapse.
    destruct (Ascii.eqb d ";" && negb (contains "/" s)); [done|].
    rewrite IH. destruct (psplit s) as [[a b]|] eqn:Hps; [|done].
    cbn [fmap option_fmap option_map]. unfold collapse2. cbn [fst snd].
    rewrite (collapse_other d a); [done|].
    apply psplit_Some in Hps as ->.
    change (String d (a +++ String ";" b))
      with (String d a +++ String ";" b) in Hp.
    by rewrite prefix_triple_app in Hp.
Qed.

Lemma psplit_split s a b :
  psplit s = Some (a, b) -> psplit a = None /\ contains "/" b = false.
Proof.
  revert a. induction s as [|c s IH]; intros a; [done|]. cbn [psplit].
  destruct (Ascii.eqb c ";" && negb (contains "/" s)) eqn:Hc.
  - intros [= <- <-]. apply andb_true_iff in Hc as [_ Hc].
    by apply negb_true_iff in Hc.
  - destruct (psplit s) as [[a' b']|] eqn:Hps; [|done]. intros [= <- <-].
    destruct (IH a' eq_refl) as [Ha Hb]. split; [|done].
    cbn [psplit]. rewrite Ha.
    destruct (Ascii.eqb c ";"); [|done]. cbn [andb] in Hc |- *.
    apply negb_false_iff in Hc. apply psplit_Some in Hps as ->.
    rewrite contains_char_app in Hc. cbn [contains] in Hc.
    rewrite prefix_char, Hb in Hc. cbn in Hc. rewrite orb_false_r in Hc.
    by rewrite Hc.
Qed.

Lemma psplit_app a b :
  psplit a = None -> contains "/" b = false ->
  psplit (a +++ String ";" b) = Some (a, b).
Proof.
  intros Ha Hb. induction a as [|c a IH].
  - cbn [String.append psplit]. by rewrite Hb.
  - cbn [String.append psplit] in *.
    destruct (Ascii.eqb c ";" && negb (contains "/" a)) eqn:Hc; [done|].
    destruct (psplit a) as [[]|]; [done|]. rewrite (IH eq_refl).
    destruct (Ascii.eqb c ";"); [|done]. cbn [andb] in Hc |- *.
    apply negb_false_iff in Hc. by rewrite contains_char_app, Hc.
Qed.

Lemma psplit_None_no_semicolon s :
  contains ";" s = false -> psplit s = None.
Proof.
  induction s as [|c s IH]; [done|]. cbn [contains psplit].
  rewrite prefix_char, (Ascii.eqb_sym ";" c).
  intros [-> Hs]%orb_false_iff. by rewrite IH.
Qed.

(** *** The tail of a URL: split, put together, split again *)

Lemma contains_char_opt c d x :
  contains (String c "") (opt d x)
    = truthy x && (Ascii.eqb c d || contains (String c "") x).
Proof.
  unfold opt. destruct (truthy x); [|done]. cbn [contains andb].
  by rewrite prefix_char.
Qed.

Lemma cut_default_inv c t a f :
  default (t, "") (cut c t) = (a, f) ->
  contains (String c "") a = false
  /\ forall d, contains (String d "") t = false ->
                contains (String d "") a = false
                /\ contains (String d "") f = false.
Proof.
  destruct (cut c t) as [[a' f']|] eqn:Hc; intros [= <- <-].
  - apply cut_Some in Hc as [-> Ha]. split; [done|]. intros d.
    rewrite contains_char_app. cbn [contains].
    intros [? [_ ?]%orb_false_iff]%orb_false_iff. done.
  - apply cut_None in Hc. done.
Qed.

Lemma cut_default_join c a f :
  contains (String c "") a = false ->
  default (a +++ opt c f, "") (cut c (a +++ opt c f)) = (a, f).
Proof.
  intros Ha. unfold opt. destruct f as [|d f]; cbn [truthy].
  - rewrite app_nil_r. apply cut_None in Ha. by rewrite Ha.
  - by rewrite cut_app.
Qed.

Lemma join_tail_assoc pth prm q f :
  join_tail (pth, prm, q, f)
    = ((pth +++ opt ";" prm) +++ opt "?" q) +++ opt "#" f.
Proof. unfold join_tail. by rewrite !app_assoc. Qed.

(** Splitting what was put together gives the same components. *)
Lemma split_join_tail sch t c :
  split_tail sch t = c -> split_tail sch (join_tail c) = c.
Proof.
  unfold split_tail.
  destruct (default (t, "") (cut "#" t)) as [ta tf] eqn:H1.
  destruct (default (ta, "") (cut "?" ta)) as [tb tq] eqn:H2.
  destruct (cut_default_inv _ _ _ _ H1) as [Ha _].
  destruct (cut_default_inv _ _ _ _ H2) as [Hb Hb'].
  destruct (Hb' "#"%char Ha) as [Hb1 Hq1]. clear Hb'.
  assert (exists pth prm,
            (if in_list sch uses_params then default (tb, "") (psplit tb)
             else (tb, "")) = (pth, prm)
            /\ contains "#" (pth +++ opt ";" prm) = false
            /\ contains "?" (pth +++ opt ";" prm) = false
            /\ (if in_list sch uses_params
                then default (pth +++ opt ";" prm, "")
                             (psplit (pth +++ opt ";" prm))
                else (pth +++ opt ";" prm, "")) = (pth, prm))
    as (pth & prm & -> & Hx1 & Hx2 & Hx3).
  { destruct (in_list sch uses_params).
    - destruct (psplit tb) as [[pth prm]|] eqn:Hps.
      + exists pth, prm. destruct (psplit_split _ _ _ Hps) as [Hp1 Hp2].
        apply psplit_Some in Hps as ->.
        rewrite contains_char_app in Hb, Hb1. cbn [contains] in Hb, Hb1.
        rewrite prefix_char in Hb, Hb1.
        apply orb_false_iff in Hb as [Hb Hb'], Hb1 as [Hb1 Hb1'].
        rewrite !contains_char_app, !contains_char_opt, Hb, Hb1.
        cbn [Ascii.eqb Bool.eqb orb andb] in *. rewrite Hb', Hb1', !andb_false_r.
        repeat split; try done.
        unfold opt. destruct prm as [|d prm]; cbn [truthy default].
        * by rewrite app_nil_r, Hp1.
        * by rewrite psplit_app.
      + exists tb, "". cbn [opt truthy]. by rewrite !app_nil_r, Hps.
    - exists tb, "". cbn [opt truthy]. by rewrite !app_nil_r. }
  intros <-. rewrite join_tail_assoc.
  rewrite cut_default_join.
  2:{ by rewrite contains_char_app, Hx1, contains_char_opt, Hq1, andb_false_r. }
  by rewrite cut_default_join, Hx3.
Qed.

(** Splitting after the last step of [normalize_url] gives the components
    with the same step applied to each. *)
Lemma split_tail_collapse sch t pth prm q f :
  split_tail sch t = (pth, prm, q, f) ->
  split_tail sch (replace "///" "//" t)
    = (replace "///" "//" pth, replace "///" "//" prm,
       replace "///" "//" q, replace "///" "//" f).
Proof.
  unfold split_tail. rewrite cut_collapse by done.
  destruct (cut "#" t) as [[ta tf]|]; cbn [fmap option_fmap option_map default
      from_option id collapse2 fst snd]; rewrite cut_collapse by done.
  - destruct (cut "?" ta) as [[tb tq]|]; cbn [fmap option_fmap option_map
        default from_option id collapse2 fst snd];
      (destruct (in_list sch uses_params); [|by intros [= <- <- <- <-]]);
      rewrite psplit_collapse;
      (destruct (psplit _) as [[a b]|]; cbn [fmap option_fmap option_map
         default from_option id collapse2 fst snd]);
      by intros [= <- <- <- <-].
  - destruct (cut "?" t) as [[tb tq]|]; cbn [fmap option_fmap option_map
        default from_option id collapse2 fst snd];
      (destruct (in_list sch uses_params); [|by intros [= <- <- <- <-]]);
      rewrite psplit_collapse;
      (destruct (psplit _) as [[a b]|]; cbn [fmap option_fmap option_map
         default from_option id collapse2 fst snd]);
      by intros [= <- <- <- <-].
Qed.


(** After a network location the path is empty, and so are the parameters,
    or it starts with a slash. *)
Lemma split_tail_path sch t pth prm q f :
  tail_ok t = true -> split_tail sch t = (pth, prm, q, f) ->
  (pth = "" /\ prm = "") \/ String.prefix "/" pth = true.
Proof.
  unfold split_tail. destruct t as [|c t].
  { intros _. cbn [cut default from_option id psplit].
    destruct (in_list sch uses_params); intros [= <- <- <- <-]; by left. }
  cbn [tail_ok]. unfold is_delim.
  intros [[->%Ascii.eqb_eq| ->%Ascii.eqb_eq]%orb_true_iff
         | ->%Ascii.eqb_eq]%orb_true_iff.
  - destruct (default _ (cut "#" (String "/" t))) as [ta tf] eqn:H1.
    assert (exists ta', ta = String "/" ta') as [ta' ->].
    { cbn [cut Ascii.eqb Bool.eqb] in H1.
      destruct (cut "#" t) as [[]|]; injection H1 as <- _; eauto. }
    destruct (default _ (cut "?" (String "/" ta'))) as [tb tq] eqn:H2.
    assert (exists tb', tb = String "/" tb') as [tb' ->].
    { cbn [cut Ascii.eqb Bool.eqb] in H2.
      destruct (cut "?" ta') as [[]|]; injection H2 as <- _; eauto. }
    destruct (in_list sch uses_params);
      [|intros [= <- <- <- <-]; right; by rewrite prefix_char].
    cbn [psplit Ascii.eqb Bool.eqb andb].
    destruct (psplit tb') as [[]|]; intros [= <- <- <- <-]; right;
      by rewrite prefix_char.
  - cbn [cut Ascii.eqb Bool.eqb].
    destruct (cut "#" t) as [[ta tf]|]; cbn [default from_option id cut
        Ascii.eqb Bool.eqb psplit];
      (destruct (in_list sch uses_params); intros [= <- <- <- <-]; by left).
  - cbn [cut Ascii.eqb Bool.eqb default from_option id psplit].
    destruct (in_list sch uses_params); intros [= <- <- <- <-]; by left.
Qed.

Lemma tail_ok_join pth prm q f :
  (pth = "" /\ prm = "") \/ String.prefix "/" pth = true ->
  tail_ok (join_tail (pth, prm, q, f)) = true.
Proof.
  intros [[-> ->]|Hp]; unfold join_tail.
  - cbn [opt truthy String.append]. by destruct q, f.
  - destruct pth as [|c pth]; [done|]. rewrite prefix_char in Hp.
    apply Ascii.eqb_eq in Hp as <-. done.
Qed.

Lemma tail_ok_collapse t :
  tail_ok t = true -> tail_ok (replace "///" "//" t) = true.
Proof.
  destruct t as [|c t]; [done|]. by destruct (collapse_head c t) as [t' ->].
Qed.

End string_facts.

(** ** The parser, structurally *)

Section url_facts.

#[local] Arguments String.append !s1 s2 : simpl nomatch.

Variable _check_bracketed_host : string -> result unit.
Variable normalize_NFKC : string -> string.

#[local] Abbreviation urlsplit :=
  (urlsplit _check_bracketed_host normalize_NFKC).
#[local] Abbreviation urlparse :=
  (urlparse _check_bracketed_host normalize_NFKC).
#[local] Abbreviation normalize_url :=
  (normalize_url _check_bracketed_host normalize_NFKC).
#[local] Abbreviation netloc_checks :=
  (netloc_checks _check_bracketed_host normalize_NFKC).
#[local] Abbreviation reassembled :=
  (reassembled _check_bracketed_host normalize_NFKC).
#[local] Abbreviation normalize_twice :=
  (normalize_twice _check_bracketed_host normalize_NFKC).

Lemma split_scheme_eq y :
  match find ":" y with
  | Some i =>
      if (0 <? i) && is_ascii_alpha (default "000"%char (String.get 0 y))
         && all_chars (fun c => contains (String c "") scheme_chars)
                      (slice_to i y)
      then (lower (slice_to i y), slice_from (i + 1) y)
      else ("", y)
  | None => ("", y)
  end = split_scheme y.
Proof.
  unfold split_scheme, scheme_ok. pose proof (find_cut ":" y) as H.
  destruct (find ":" y) as [i|]; rewrite H; [|done].
  rewrite Nat.add_1_r. destruct i as [|i]; [by destruct y|].
  by destruct y.
Qed.

Lemma urlsplit_eq url :
  urlsplit url =
    let '(sch, r1) := split_scheme (clean url) in
    if String.prefix "//" r1 then
      let '(n, t) := span_netloc (slice_from 2 r1) in
      _ ← netloc_checks n;
      let '(a, f) := default (t, "") (cut "#" t) in
      let '(b, q) := default (a, "") (cut "?" a) in
      Ok (mkSplitResult sch n b q f)
    else
      let '(a, f) := default (r1, "") (cut "#" r1) in
      let '(b, q) := default (a, "") (cut "?" a) in
      Ok (mkSplitResult sch "" b q f).
Proof.
  unfold urlsplit.
  change (foldl _ (lstrip _ url) _) with (clean url).
  rewrite split_scheme_eq. destruct (split_scheme (clean url)) as [sch r1].
  rewrite slice_to_2. destruct (String.prefix "//" r1) eqn:Hp.
  - rewrite (prefix_double _ Hp) at 1. rewrite _splitnetloc_span.
    destruct (span_netloc (slice_from 2 r1)) as [n t].
    unfold netloc_checks. rewrite !result_bind_unfold.
    destruct (_ || _); [done|].
    destruct (if contains "[" n && contains "]" n then _ else _); [|done].
    rewrite split1_cut.
    destruct (default (t, "") (cut "#" t)) as [ta tf]. rewrite split1_cut.
    destruct (default (ta, "") (cut "?" ta)) as [tb tq].
    rewrite result_bind_unfold. by destruct (_checknetloc _ n) as [[]|].
  - rewrite result_bind_unfold, split1_cut.
    destruct (default (r1, "") (cut "#" r1)) as [ta tf]. rewrite split1_cut.
    by destruct (default (ta, "") (cut "?" ta)) as [tb tq].
Qed.

Lemma urlparse_eq url :
  urlparse url =
    let '(sch, r1) := split_scheme (clean url) in
    if String.prefix "//" r1 then
      let '(n, t) := span_netloc (slice_from 2 r1) in
      _ ← netloc_checks n;
      let '(pth, prm, q, f) := split_tail sch t in
      Ok (mkParseResult sch n pth prm q f)
    else
      let '(pth, prm, q, f) := split_tail sch r1 in
      Ok (mkParseResult sch "" pth prm q f).
Proof.
  unfold urlparse. rewrite urlsplit_eq.
  destruct (split_scheme (clean url)) as [sch r1].
  unfold split_tail. destruct (String.prefix "//" r1).
  - destruct (span_netloc (slice_from 2 r1)) as [n t].
    rewrite !result_bind_unfold. destruct (netloc_checks n); [|done].
    destruct (default (t, "") (cut "#" t)) as [ta tf].
    destruct (default (ta, "") (cut "?" ta)) as [tb tq].
    rewrite _splitparams_psplit.
    destruct (in_list sch uses_params); cbn [andb].
    + destruct (contains ";" tb) eqn:Hc; [by destruct (default _ _)|].
      by rewrite (psplit_None_no_semicolon _ Hc).
    + done.
  - rewrite !result_bind_unfold.
    destruct (default (r1, "") (cut "#" r1)) as [ta tf].
    destruct (default (ta, "") (cut "?" ta)) as [tb tq].
    rewrite _splitparams_psplit.
    destruct (in_list sch uses_params); cbn [andb].
    + destruct (contains ";" tb) eqn:Hc; [by destruct (default _ _)|].
      by rewrite (psplit_None_no_semicolon _ Hc).
    + done.
Qed.

(** *** Where the characters of the result come from

    Every character of a component of the parse, and of the URL put together
    again, is a character of the cleaned input, a lower-cased scheme
    character, or one of the separators. *)

Section chars.

Variable P : ascii -> bool.
Hypothesis P_lower :
  forall c, contains (String c "") scheme_chars = true -> P (lower_char c) = true.
Hypothesis P_separators : all_chars P "/:;?#https" = true.

Lemma all_chars_cut c s a b :
  all_chars P s = true -> cut c s = Some (a, b) ->
  all_chars P a = true /\ all_chars P b = true.
Proof.
  intros Hs [-> _]%cut_Some. rewrite all_chars_app in Hs.
  apply andb_true_iff in Hs as [Ha Hb]. cbn [all_chars] in Hb.
  by apply andb_true_iff in Hb as [_ Hb].
Qed.

Lemma all_chars_cut_default c s a b :
  all_chars P s = true -> default (s, "") (cut c s) = (a, b) ->
  all_chars P a = true /\ all_chars P b = true.
Proof.
  intros Hs. destruct (cut c s) as [[a' b']|] eqn:Hc; intros [= <- <-].
  - by apply (all_chars_cut c s).
  - done.
Qed.

Lemma all_chars_split_tail sch t pth prm q f :
  all_chars P t = true -> split_tail sch t = (pth, prm, q, f) ->
  all_chars P pth = true /\ all_chars P prm = true
  /\ all_chars P q = true /\ all_chars P f = true.
Proof.
  intros Ht. unfold split_tail.
  destruct (default (t, "") (cut "#" t)) as [ta tf] eqn:H1.
  destruct (default (ta, "") (cut "?" ta)) as [tb tq] eqn:H2.
  destruct (all_chars_cut_default _ _ _ _ Ht H1) as [Ha Hf].
  destruct (all_chars_cut_default _ _ _ _ Ha H2) as [Hb Hq].
  destruct (in_list sch uses_params).
  - destruct (psplit tb) as [[a' b']|] eqn:H3; intros Heq; cbn in Heq; simplify_eq.
    + apply psplit_Some in H3 as ->. rewrite all_chars_app in Hb.
      apply andb_true_iff in Hb as [Hb1 Hb2]. cbn [all_chars] in Hb2.
      by apply andb_true_iff in Hb2 as [_ Hb2].
    + done.
  - by intros Heq; cbn in Heq; simplify_eq.
Qed.

Lemma all_chars_split_scheme y sch r1 :
  all_chars P y = true -> split_scheme y = (sch, r1) ->
  all_chars P sch = true /\ all_chars P r1 = true.
Proof.
  intros Hy. unfold split_scheme.
  destruct (cut ":" y) as [[a b]|] eqn:Hc;
    [|by intros Heq; simplify_eq].
  destruct (all_chars_cut _ _ _ _ Hy Hc) as [Ha Hb].
  destruct (scheme_ok a) eqn:Hok; intros Heq; simplify_eq; [|done].
  split; [|done]. apply all_chars_lower; [done|].
  unfold scheme_ok in Hok. by apply andb_true_iff in Hok as [_ ?].
Qed.

Lemma all_chars_urlparse url p :
  all_chars P (clean url) = true -> urlparse url = Ok p ->
  all_chars P (scheme p) = true /\ all_chars P (netloc p) = true
  /\ all_chars P (path p) = true /\ all_chars P (params p) = true
  /\ all_chars P (query p) = true /\ all_chars P (fragment p) = true.
Proof.
  intros Hy. rewrite urlparse_eq.
  destruct (split_scheme (clean url)) as [sch r1] eqn:Hs.
  destruct (all_chars_split_scheme _ _ _ Hy Hs) as [Hsch Hr1].
  destruct (String.prefix "//" r1).
  - destruct (span_netloc (slice_from 2 r1)) as [n t] eqn:Hn.
    apply span_netloc_app in Hn as (Hnt & _ & _).
    destruct (all_chars_slice P 2 r1 Hr1) as [_ Hr2].
    rewrite Hnt, all_chars_app in Hr2.
    apply andb_true_iff in Hr2 as [Hn Ht].
    rewrite result_bind_unfold. destruct (netloc_checks n); [|done].
    destruct (split_tail sch t) as [[[pth prm] q] f] eqn:Hst.
    intros [= <-]. cbn [scheme netloc path params query fragment].
    by destruct (all_chars_split_tail _ _ _ _ _ _ Ht Hst) as (?&?&?&?).
  - destruct (split_tail sch r1) as [[[pth prm] q] f] eqn:Hst.
    intros [= <-]. cbn [scheme netloc path params query fragment].
    by destruct (all_chars_split_tail _ _ _ _ _ _ Hr1 Hst) as (?&?&?&?).
Qed.

Lemma all_chars_urlunparse p :
  all_chars P (scheme p) = true -> all_chars P (netloc p) = true ->
  all_chars P (path p) = true -> all_chars P (params p) = true ->
  all_chars P (query p) = true -> all_chars P (fragment p) = true ->
  all_chars P (urlunparse p) = true.
Proof.
  destruct p as [sch n pth prm q f].
  cbn [scheme netloc path params query fragment].
  intros Hsch Hn Hpth Hprm Hq Hf.
  pose proof P_separators as Hsep. cbn [all_chars] in Hsep.
  destruct (P "/") eqn:P1; [|done]. destruct (P ":") eqn:P2; [|done].
  destruct (P ";") eqn:P3; [|done]. destruct (P "?") eqn:P4; [|done].
  destruct (P "#") eqn:P5; [|done].
  unfold urlunparse, urlunsplit. cbv zeta.
  repeat match goal with
         | |- context [if ?b then _ else _] => destruct b
         end;
    repeat (rewrite ?all_chars_app; cbn [all_chars]);
    by rewrite ?Hsch, ?Hn, ?Hpth, ?Hprm, ?Hq, ?Hf, ?P1, ?P2, ?P3, ?P4, ?P5.
Qed.

Lemma all_chars_normalize_url url u :
  all_chars P (clean (replace "\" "/" url)) = true ->
  normalize_url url = Ok u -> all_chars P u = true.
Proof.
  intros Hy. unfold normalize_url. rewrite result_bind_unfold.
  destruct (urlparse _) as [p|] eqn:Hp; [|done]. intros [= <-].
  destruct (all_chars_urlparse _ _ Hy Hp) as (Hsch & Hn & Hpth & Hprm & Hq & Hf).
  pose proof P_separators as Hsep. cbn [all_chars] in Hsep.
  destruct (P "/") eqn:P1; [|done]. cbn [andb] in Hsep.
  apply andb_true_iff in Hsep as [_ Hsep].
  apply andb_true_iff in Hsep as [_ Hsep].
  apply andb_true_iff in Hsep as [_ Hsep].
  apply andb_true_iff in Hsep as [_ Hsep].
  apply all_chars_replace_go; [cbn [all_chars]; by rewrite P1|].
  apply all_chars_urlunparse; destruct (negb _); done.
Qed.

End chars.

Lemma all_chars_lstrip P chars s :
  all_chars P s = true -> all_chars P (lstrip chars s) = true.
Proof.
  induction s as [|c s IH]; [done|]. cbn [lstrip all_chars].
  intros [Hc Hs]%andb_true_iff. destruct (contains _ chars); [by apply IH|].
  cbn [all_chars]. by rewrite Hc, Hs.
Qed.

Lemma all_chars_clean P url :
  all_chars P url = true -> all_chars P (clean url) = true.
Proof.
  intros H. unfold clean, _UNSAFE_URL_BYTES_TO_REMOVE. cbn [foldl].
  repeat (apply all_chars_replace; [done|done|]). by apply all_chars_lstrip.
Qed.

Lemma lower_char_no_backslash c :
  contains (String c "") scheme_chars = true ->
  negb (Ascii.eqb (lower_char c) "\") = true.
Proof. destruct c as [[] [] [] [] [] [] [] []]; vm_compute; done. Qed.

Lemma replace_backslash_gone url :
  contains "\" (replace "\" "/" url) = false.
Proof. by apply replace_char_gone. Qed.

Lemma normalize_url_no_backslash url u :
  normalize_url url = Ok u -> contains "\" u = false.
Proof.
  intros Hu. apply contains_char_false.
  apply (all_chars_normalize_url (fun d => negb (Ascii.eqb d "\"))
           lower_char_no_backslash eq_refl url u); [|done].
  apply all_chars_clean, contains_char_false, replace_backslash_gone.
Qed.

(** C9: backslashes are replaced by slashes before anything else, so
    [normalize_url] gives the same result on a URL and on the URL with its
    backslashes replaced, and a URL it returns contains no backslash. *)
Theorem normalize_url_backslash url :
  normalize_url url = normalize_url (replace "\" "/" url)
  /\ (forall u, normalize_url url = Ok u -> contains "\" u = false).
Proof.
  split.
  - unfold normalize_url.
    by rewrite (replace_char_absent _ _ _ (replace_backslash_gone url)).
  - apply normalize_url_no_backslash.
Qed.

(** *** URLs with a scheme and a network location *)

Lemma scheme_char_facts c :
  contains (String c "") scheme_chars = true ->
  contains (String (lower_char c) "") scheme_chars = true
  /\ lower_char (lower_char c) = lower_char c
  /\ Ascii.eqb c ":" = false
  /\ Ascii.eqb (lower_char c) ":" = false
  /\ Ascii.eqb (lower_char c) "/" = false
  /\ safe_char (lower_char c) = true.
Proof. destruct c as [[] [] [] [] [] [] [] []]; vm_compute; done. Qed.

Lemma alpha_char_facts c :
  is_ascii_alpha c = true ->
  is_ascii_alpha (lower_char c) = true
  /\ contains (String (lower_char c) "") _WHATWG_C0_CONTROL_OR_SPACE = false.
Proof. destruct c as [[] [] [] [] [] [] [] []]; vm_compute; done. Qed.

Lemma scheme_ok_facts a :
  scheme_ok a = true ->
  scheme_ok (lower a) = true
  /\ lower (lower a) = lower a
  /\ contains ":" a = false
  /\ contains ":" (lower a) = false
  /\ contains "/" (lower a) = false
  /\ exists c s, lower a = String c s
       /\ contains (String c "") _WHATWG_C0_CONTROL_OR_SPACE = false.
Proof.
  unfold scheme_ok.
  intros [[Ht Halpha]%andb_true_iff Hall]%andb_true_iff.
  assert (all_chars (fun c => contains (String c "") scheme_chars) (lower a)
          = true
          /\ lower (lower a) = lower a
          /\ contains ":" a = false /\ contains ":" (lower a) = false
          /\ contains "/" (lower a) = false) as (H1 & H2 & H3 & H4 & H5).
  { clear Ht Halpha. induction a as [|c a IH]; [done|].
    cbn [all_chars lower] in *. apply andb_true_iff in Hall as [Hc Ha].
    destruct (IH Ha) as (IH1 & IH2 & IH3 & IH4 & IH5).
    destruct (scheme_char_facts c Hc) as (F1 & F2 & F3 & F4 & F5 & _).
    cbn [contains]. rewrite !prefix_char, F1, F2, IH1, IH2, IH3, IH4, IH5.
    by rewrite !(Ascii.eqb_sym _ c), !(Ascii.eqb_sym _ (lower_char c)),
         F3, F4, F5. }
  destruct a as [|c a]; [done|]. cbn [String.get default from_option id] in Halpha.
  destruct (alpha_char_facts c Halpha) as [G1 G2].
  repeat split; try done.
  - unfold scheme_ok. rewrite H1.
    cbn [lower truthy String.get default from_option id andb]. by rewrite G1.
  - cbn [lower]. eauto.
Qed.

(** The parse of a URL that, once cleaned, reads [a://n t]. *)
Lemma urlparse_shape url a n t :
  clean url = a +++ String ":" ("//" +++ n +++ t) ->
  scheme_ok a = true ->
  all_chars (fun c => negb (is_delim c)) n = true ->
  tail_ok t = true ->
  urlparse url =
    (_ ← netloc_checks n;
     let '(pth, prm, q, f) := split_tail (lower a) t in
     Ok (mkParseResult (lower a) n pth prm q f)).
Proof.
  intros Hy Ha Hn Ht. rewrite urlparse_eq, Hy. unfold split_scheme.
  destruct (scheme_ok_facts a Ha) as (_ & _ & Hcolon & _).
  rewrite (cut_app _ _ _ Hcolon), Ha.
  cbn [String.append]. rewrite !prefix_cons, prefix_nil. cbn [Ascii.eqb Bool.eqb andb].
  cbn [slice_from]. rewrite span_netloc_of_app; [done|done|].
  by destruct t.
Qed.

(** A parse with a scheme and a network location comes from such a URL. *)
Lemma urlparse_host_inv url p :
  urlparse url = Ok p -> truthy (scheme p) = true ->
  truthy (netloc p) = true ->
  exists a t,
    clean url = a +++ String ":" ("//" +++ netloc p +++ t)
    /\ scheme_ok a = true /\ scheme p = lower a
    /\ all_chars (fun c => negb (is_delim c)) (netloc p) = true
    /\ tail_ok t = true
    /\ netloc_checks (netloc p) = Ok tt
    /\ split_tail (lower a) t = (path p, params p, query p, fragment p).
Proof.
  rewrite urlparse_eq. unfold split_scheme.
  destruct (cut ":" (clean url)) as [[a b]|] eqn:Hcut.
  2:{ destruct (String.prefix "//" (clean url)).
      - destruct (span_netloc _) as [n t]. rewrite result_bind_unfold.
        destruct (netloc_checks n); [|done].
        destruct (split_tail "" t) as [[[? ?] ?] ?]. by intros [= <-].
      - destruct (split_tail "" _) as [[[? ?] ?] ?]. by intros [= <-]. }
  destruct (scheme_ok a) eqn:Ha.
  2:{ destruct (String.prefix "//" (clean url)).
      - destruct (span_netloc _) as [n t]. rewrite result_bind_unfold.
        destruct (netloc_checks n); [|done].
        destruct (split_tail "" t) as [[[? ?] ?] ?]. by intros [= <-].
      - destruct (split_tail "" _) as [[[? ?] ?] ?]. by intros [= <-]. }
  apply cut_Some in Hcut as [Hy _].
  destruct (String.prefix "//" b) eqn:Hp.
  2:{ destruct (split_tail _ b) as [[[? ?] ?] ?]. by intros [= <-]. }
  destruct (span_netloc (slice_from 2 b)) as [n t] eqn:Hspan.
  apply span_netloc_app in Hspan as (Hb & Hn & Ht).
  rewrite result_bind_unfold. destruct (netloc_checks n) as [[]|] eqn:Hck; [|done].
  destruct (split_tail (lower a) t) as [[[pth prm] q] f] eqn:Hst.
  intros [= <-] _ _. cbn [scheme netloc path params query fragment].
  exists a, t. rewrite Hy, (prefix_double _ Hp), Hb.
  repeat split; try done. by destruct t.
Qed.

Lemma urlunparse_host sch n pth prm q f :
  truthy sch = true -> truthy n = true ->
  (pth = "" /\ prm = "") \/ String.prefix "/" pth = true ->
  urlunparse (mkParseResult sch n pth prm q f)
    = sch +++ String ":" ("//" +++ n +++ join_tail (pth, prm, q, f)).
Proof.
  intros Hsch Hn Hpth. unfold urlunparse, urlunsplit, join_tail.
  rewrite Hsch, Hn, slice_to_1. cbn [orb].
  change (if truthy prm then pth +++ ";" +++ prm else pth)
    with (if truthy prm then pth +++ String ";" prm else pth).
  assert ((if truthy prm then pth +++ String ";" prm else pth)
          = pth +++ opt ";" prm) as ->.
  { unfold opt. destruct (truthy prm); [done|]. by rewrite app_nil_r. }
  assert (truthy (pth +++ opt ";" prm)
          && negb (String.prefix "/" (pth +++ opt ";" prm)) = false) as ->.
  { destruct Hpth as [[-> ->]|Hp]; [by cbn|].
    destruct pth as [|c pth]; [by cbn in Hp|]. cbn [String.append].
    rewrite prefix_char in Hp |- *. by rewrite Hp. }
  generalize (opt ";" prm). intros x. unfold opt.
  destruct (truthy q), (truthy f); rewrite ?app_assoc, ?app_nil_r;
    reflexivity.
Qed.

Lemma collapse_host sch n x :
  contains "/" sch = false -> truthy n = true ->
  all_chars (fun c => negb (is_delim c)) n = true ->
  replace "///" "//" (sch +++ String ":" ("//" +++ n +++ x))
    = sch +++ String ":" ("//" +++ n +++ replace "///" "//" x).
Proof.
  intros Hsch Hn Hnd.
  assert (contains "/" n = false) as Hslash.
  { apply contains_char_false. revert Hnd. apply all_chars_impl.
    intros c. unfold is_delim. by destruct (Ascii.eqb c "/"). }
  rewrite collapse_prefix by done.
  rewrite collapse_other by done. f_equal.
  destruct n as [|c n]; [done|]. cbn [contains] in Hslash.
  rewrite prefix_char in Hslash. apply orb_false_iff in Hslash as [Hc Hslash].
  cbn [String.append].
  rewrite collapse_other by (by rewrite !prefix_cons, Hc, !andb_false_r).
  rewrite collapse_other by (by rewrite !prefix_cons, Hc, !andb_false_r).
  rewrite collapse_other by (by rewrite !prefix_cons, Hc).
  by rewrite collapse_prefix.
Qed.

(** *** Cleaning *)

Lemma clean_unfold url :
  clean url =
    replace (String "010" "") ""
      (replace (String "013" "") ""
         (replace (String "009" "") ""
            (lstrip _WHATWG_C0_CONTROL_OR_SPACE url))).
Proof. reflexivity. Qed.

Lemma safe_char_contains s :
  all_chars safe_char s = true
  <-> contains (String "009" "") s = false
      /\ contains (String "013" "") s = false
      /\ contains (String "010" "") s = false.
Proof.
  rewrite !contains_char_false. unfold safe_char.
  induction s as [|c s IH]; [done|]. cbn [all_chars].
  rewrite !andb_true_iff, IH. tauto.
Qed.

Lemma clean_safe url : all_chars safe_char (clean url) = true.
Proof.
  rewrite clean_unfold. apply safe_char_contains. repeat split.
  - apply contains_char_false.
    do 2 (apply all_chars_replace; [done|done|]).
    apply contains_char_false. by apply replace_char_gone.
  - apply contains_char_false. apply all_chars_replace; [done|done|].
    apply contains_char_false. by apply replace_char_gone.
  - by apply replace_char_gone.
Qed.

Lemma clean_id c s :
  contains (String c "") _WHATWG_C0_CONTROL_OR_SPACE = false ->
  all_chars safe_char (String c s) = true ->
  clean (String c s) = String c s.
Proof.
  intros Hc (H1 & H2 & H3)%safe_char_contains.
  rewrite clean_unfold. cbn [lstrip]. rewrite Hc.
  by rewrite (replace_char_absent _ _ _ H1), (replace_char_absent _ _ _ H2),
       (replace_char_absent _ _ _ H3).
Qed.

Lemma lower_char_safe c :
  contains (String c "") scheme_chars = true ->
  safe_char (lower_char c) = true.
Proof. intros H. by destruct (scheme_char_facts c H) as (_&_&_&_&_&?). Qed.

(** *** The last step of [normalize_url] *)

Lemma normalize_url_reassembled url :
  normalize_url url =
    (u0 ← reassembled url; Ok (replace "///" "//" u0)).
Proof.
  unfold normalize_url, reassembled. rewrite !result_bind_unfold.
  by destruct (urlparse _).
Qed.

(** C8 (as amended): the last step of [normalize_url] replaces, scanning the
    reassembled URL from left to right, each occurrence of [///] by [//]. A
    URL reassembled as [scheme:///host] becomes [scheme://host], and when the
    reassembled URL has no run of four slashes the result has no triple
    slash. *)
Theorem normalize_url_collapse url u0 :
  reassembled url = Ok u0 ->
  normalize_url url = Ok (replace "///" "//" u0)
  /\ (contains "////" u0 = false ->
      contains "///" (replace "///" "//" u0) = false)
  /\ (forall sch host,
        u0 = sch +++ ":///" +++ host ->
        contains "/" sch = false -> contains "///" host = false ->
        normalize_url url = Ok (sch +++ "://" +++ host)).
Proof.
  intros Hu0. rewrite normalize_url_reassembled, Hu0, result_bind_unfold.
  split; [done|]. split; [apply collapse_no_triple|].
  intros sch host -> Hsch Hhost. f_equal.
  rewrite collapse_prefix by done. f_equal.
  change (":///" +++ host)
    with (String ":" (String "/" (String "/" (String "/" host)))).
  rewrite collapse_other by done.
  by rewrite collapse_triple_cons, (collapse_id _ Hhost).
Qed.


(** *** The scheme of the result *)




End url_facts.

(** ** The client *)

Lemma dict_display_pair {V} (k1 k2 : string) (v1 v2 : V) :
  dict_display [(k1, v1); (k2, v2)] = <[k2 := v2]> (<[k1 := v1]> ∅).
Proof. reflexivity. Qed.

Lemma payload_lookup messages model options k :
  payload messages model options !! k =
    match options !! k with
    | Some v => Some v
    | None =>
        if decide (k = "messages") then Some (VList messages)
        else if decide (k = "model") then Some (VStr model)
        else None
    end.
Proof.
  unfold payload, dict_unpack. rewrite dict_display_pair, lookup_union.
  destruct (options !! k) as [v|] eqn:Hk.
  - by rewrite union_Some_l.
  - rewrite (left_id None _). rewrite lookup_insert. case_decide; subst.
    + by rewrite decide_True.
    + rewrite decide_False by done. rewrite lookup_insert.
      case_decide; subst; [by rewrite decide_True|].
      by rewrite decide_False.
Qed.

(** The payload has the keys [model], [messages] and the keys of the
    options; an option key carries the option's value, and [model] and
    [messages] carry the arguments when no option has their name. *)
Lemma payload_keys messages model (options : gmap string value) :
  dom (payload messages model options)
    = {["model"]} ∪ {["messages"]} ∪ dom options
  /\ (forall k v, options !! k = Some v ->
        payload messages model options !! k = Some v)
  /\ (options !! "model" = None ->
        payload messages model options !! "model" = Some (VStr model))
  /\ (options !! "messages" = None ->
        payload messages model options !! "messages" = Some (VList messages)).
Proof.
  split; [|split; [|split]].
  - unfold payload, dict_unpack. rewrite dict_display_pair.
    rewrite dom_union_L, !dom_insert_L, dom_empty_L. set_solver.
  - intros k v Hk. by rewrite payload_lookup, Hk.
  - intros Hk. by rewrite payload_lookup, Hk.
  - intros Hk. by rewrite payload_lookup, Hk.
Qed.

Section client_properties.

Variable _check_bracketed_host : string -> result unit.
Variable normalize_NFKC : string -> string.
Variable os_name : platform.
Variable transport : request -> result response.
Variable json_dumps : value -> result string.
Variable json_loads : string -> result value.

#[local] Abbreviation normalize_url :=
  (normalize_url _check_bracketed_host normalize_NFKC).
#[local] Abbreviation chat_completion :=
  (chat_completion _check_bracketed_host normalize_NFKC
                   transport json_dumps json_loads).
#[local] Abbreviation valid_models :=
  (valid_models _check_bracketed_host normalize_NFKC os_name
                transport json_loads).
#[local] Abbreviation os_path_join := (os_path_join os_name).

Lemma io_bind_unfold {A B} (m : IO A) (f : A -> IO B) :
  m ≫= f =
    match outcome m with
    | Ok a => mkIO (calls m ++ calls (f a)) (outcome (f a))
    | Err e => mkIO (calls m) (Err e)
    end.
Proof. reflexivity. Qed.

Ltac io_step :=
  rewrite io_bind_unfold;
  cbn [outcome calls pure raise requests_post requests_get app mret IO_ret].

(** [chat_completion], step by step: the URL is normalised, the payload
    is serialised, one request is sent, and the status of the answer decides
    the outcome. *)
Lemma chat_completion_steps api_key chat_url messages model timeout options :
  chat_completion api_key chat_url messages model timeout options =
    match normalize_url chat_url with
    | Err e => mkIO [] (Err e)
    | Ok u =>
        match json_dumps (VDict (payload messages model options)) with
        | Err e => mkIO [] (Err e)
        | Ok data =>
            let r := mkRequest POST u
              (dict_display [("Content-Type", "application/json");
                             ("Authorization", "Bearer " +++ api_key)])
              (Some data)
              (if (timeout <=? 0)%Z then None else Some timeout) in
            mkIO [r]
              match transport r with
              | Err e => Err e
              | Ok resp =>
                  if (status_code resp =? 200)%Z then json_loads (text resp)
                  else Err (Exception (text resp))
              end
        end
    end.
Proof.
  unfold chat_completion. io_step.
  destruct (normalize_url chat_url) as [u|e]; [|done].
  io_step. destruct (json_dumps _) as [data|e]; [|done].
  io_step. cbv zeta. destruct (transport _) as [resp|e]; [|done].
  by destruct (status_code resp =? 200)%Z.
Qed.

Lemma valid_models_unfold api_key base_url gpt_only :
  valid_models api_key base_url gpt_only =
    match normalize_url (os_path_join base_url "v1/models") with
    | Err e => mkIO [] (Err e)
    | Ok u =>
        let r := mkRequest GET u
          (dict_display [("Authorization", "Bearer " +++ api_key);
                         ("Content-Type", "application/json")])
          None None in
        mkIO [r]
          match transport r with
          | Err e => Err e
          | Ok resp =>
              if (status_code resp =? 200)%Z
              then models_of gpt_only (json_loads (text resp))
              else Err (Exception (text resp))
          end
    end.
Proof.
  unfold valid_models. io_step.
  destruct (normalize_url _) as [u|e]; [|done].
  io_step. cbv zeta. destruct (transport _) as [resp|e]; [|done].
  destruct (status_code resp =? 200)%Z; [|done].
  unfold models_of, response_json. io_step. rewrite !result_bind_unfold.
  destruct (json_loads _) as [data|e]; [|done].
  io_step. rewrite !result_bind_unfold.
  destruct (py_get "data" data) as [d|e]; [|done].
  destruct (py_iter d) as [entries|e]; [|done].
  io_step. destruct (comprehension _ _) as [ml|e]; [|done].
  by destruct gpt_only.
Qed.

Lemma chat_completion_outcome api_key chat_url messages model timeout options r resp :
  calls (chat_completion api_key chat_url messages model timeout options) = [r] ->
  transport r = Ok resp ->
  outcome (chat_completion api_key chat_url messages model timeout options) =
    if (status_code resp =? 200)%Z then json_loads (text resp)
    else Err (Exception (text resp)).
Proof.
  rewrite chat_completion_steps.
  destruct (normalize_url chat_url) as [u|e]; [|done].
  destruct (json_dumps _) as [data|e]; [|done].
  cbv zeta. cbn [calls outcome]. intros [= <-] Ht. by rewrite Ht.
Qed.

Lemma valid_models_outcome api_key base_url gpt_only r resp :
  calls (valid_models api_key base_url gpt_only) = [r] ->
  transport r = Ok resp ->
  outcome (valid_models api_key base_url gpt_only) =
    if (status_code resp =? 200)%Z
    then models_of gpt_only (json_loads (text resp))
    else Err (Exception (text resp)).
Proof.
  rewrite valid_models_unfold.
  destruct (normalize_url _) as [u|e]; [|done].
  cbv zeta. cbn [calls outcome]. intros [= <-] Ht. by rewrite Ht.
Qed.

(** C3: when the transport answers the request of [chat_completion] with
    [resp], a value is returned exactly when the status is 200, and it is the
    parsed body; with any other status [chat_completion] and [valid_models]
    raise [Exception] carrying the body text, and return nothing. *)
Theorem status_decides_outcome api_key url messages model timeout options
    gpt_only r resp :
  transport r = Ok resp ->
  (calls (chat_completion api_key url messages model timeout options) = [r] ->
     (forall v,
        outcome (chat_completion api_key url messages model timeout options)
          = Ok v
        <-> status_code resp = 200%Z /\ json_loads (text resp) = Ok v)
     /\ (status_code resp <> 200%Z ->
         outcome (chat_completion api_key url messages model timeout options)
           = Err (Exception (text resp))))
  /\ (calls (valid_models api_key url gpt_only) = [r] ->
      status_code resp <> 200%Z ->
      outcome (valid_models api_key url gpt_only)
        = Err (Exception (text resp))).
Proof.
  intros Ht. split.
  - intros Hr. rewrite (chat_completion_outcome _ _ _ _ _ _ _ _ Hr Ht).
    destruct (Z.eqb_spec (status_code resp) 200) as [->|Hne]; split.
    + intros v. naive_solver.
    + done.
    + intros v. naive_solver.
    + done.
  - intros Hr Hne. rewrite (valid_models_outcome _ _ _ _ _ Hr Ht).
    by destruct (Z.eqb_spec (status_code resp) 200).
Qed.

Lemma comprehension_get_id (entries : list (gmap string value)) :
  comprehension (py_get "id") (VDict <$> entries)
    = Ok ((fun e => default VNone (e !! "id")) <$> entries).
Proof.
  induction entries as [|e entries IH]; [done|].
  cbn [fmap list_fmap comprehension py_get] in *.
  rewrite !result_bind_unfold. fold (fmap (M:=list) VDict entries).
  by rewrite IH.
Qed.

Lemma comprehension_if_gpt_strings (ids : list string) :
  comprehension_if (py_in "gpt") (VStr <$> ids)
    = Ok (VStr <$> List.filter (contains "gpt") ids).
Proof.
  induction ids as [|id ids IH]; [done|].
  cbn [fmap list_fmap comprehension_if List.filter py_in] in *.
  rewrite !result_bind_unfold. fold (fmap (M:=list) VStr ids).
  rewrite IH. by destruct (contains "gpt" id).
Qed.

Lemma py_in_error sub v e : py_in sub v = Err e -> exists msg, e = TypeError msg.
Proof. destruct v; intros [= <-]; eauto. Qed.

Lemma comprehension_if_none (l : list value) :
  VNone ∈ l -> exists msg, comprehension_if (py_in "gpt") l = Err (TypeError msg).
Proof.
  induction l as [|x l IH]; intros Hin; [by apply elem_of_nil in Hin|].
  cbn [comprehension_if]. rewrite result_bind_unfold.
  destruct (py_in "gpt" x) as [b|e] eqn:Hx.
  - apply elem_of_cons in Hin as [<-|Hin]; [done|].
    destruct (IH Hin) as [msg ->]. eauto.
  - destruct (py_in_error _ _ _ Hx) as [msg ->]. eauto.
Qed.

(** C5: on a 200 answer whose body has a [data] list of entries with string
    [id]s, [valid_models] returns the identifiers in the order of the list,
    and with [gpt_only] only those that contain [gpt], in the same order. *)
Theorem valid_models_ids api_key base_url gpt_only r resp d
    (entries : list (gmap string value)) (ids : list string) :
  calls (valid_models api_key base_url gpt_only) = [r] ->
  transport r = Ok resp ->
  status_code resp = 200%Z ->
  json_loads (text resp) = Ok (VDict d) ->
  d !! "data" = Some (VList (VDict <$> entries)) ->
  Forall2 (fun e id => e !! "id" = Some (VStr id)) entries ids ->
  outcome (valid_models api_key base_url gpt_only)
    = Ok (VStr <$> (if gpt_only then List.filter (contains "gpt") ids
                    else ids)).
Proof.
  intros Hr Ht Hs Hj Hd Hids.
  rewrite (valid_models_outcome _ _ _ _ _ Hr Ht), Hs, Hj.
  change (200 =? 200)%Z with true. cbv iota. unfold models_of.
  rewrite !result_bind_unfold. cbn [py_get]. rewrite Hd.
  cbn [from_option id py_iter]. rewrite comprehension_get_id.
  rewrite ?result_bind_unfold.
  assert ((fun e : gmap string value => default VNone (e !! "id")) <$> entries
          = VStr <$> ids) as ->.
  { clear -Hids. induction Hids as [|e i entries ids He _ IH]; [done|].
    cbn [fmap list_fmap] in *. rewrite He. cbn [from_option id].
    by f_equal. }
  destruct gpt_only; [|done]. apply comprehension_if_gpt_strings.
Qed.

(** C10: on a 200 answer whose [data] list has an entry without [id],
    [valid_models] with [gpt_only] fails with a [TypeError] (the substring
    test meets [None]), and without [gpt_only] it returns a list that
    contains [None]. *)
Theorem valid_models_missing_id api_key base_url gpt_only r resp d
    (entries : list (gmap string value)) :
  calls (valid_models api_key base_url gpt_only) = [r] ->
  transport r = Ok resp ->
  status_code resp = 200%Z ->
  json_loads (text resp) = Ok (VDict d) ->
  d !! "data" = Some (VList (VDict <$> entries)) ->
  (exists e, e ∈ entries /\ e !! "id" = None) ->
  if gpt_only
  then exists msg,
         outcome (valid_models api_key base_url gpt_only) = Err (TypeError msg)
  else exists l,
         outcome (valid_models api_key base_url gpt_only) = Ok l /\ VNone ∈ l.
Proof.
  intros Hr Ht Hs Hj Hd (e & He & Hid).
  rewrite (valid_models_outcome _ _ _ _ _ Hr Ht), Hs, Hj.
  change (200 =? 200)%Z with true. cbv iota. unfold models_of.
  rewrite !result_bind_unfold. cbn [py_get]. rewrite Hd.
  cbn [from_option id py_iter]. rewrite comprehension_get_id.
  rewrite ?result_bind_unfold.
  assert (VNone ∈ (fun e : gmap string value => default VNone (e !! "id"))
                    <$> entries) as Hnone.
  { apply list_elem_of_fmap. exists e. by rewrite Hid. }
  destruct gpt_only.
  - by apply comprehension_if_none.
  - eauto.
Qed.

End client_properties.

(** In the next sections [json_dumps] is a serialiser that returns its
    text: they describe the request of a run in which [json.dumps] does not
    raise. *)

Section client_requests.

Variable _check_bracketed_host : string -> result unit.
Variable normalize_NFKC : string -> string.
Variable transport : request -> result response.
Variable json_dumps : value -> string.
Variable json_loads : string -> result value.

#[local] Abbreviation normalize_url :=
  (normalize_url _check_bracketed_host normalize_NFKC).
#[local] Abbreviation chat_completion :=
  (chat_completion _check_bracketed_host normalize_NFKC
                   transport (fun v => Ok (json_dumps v)) json_loads).

Lemma chat_completion_unfold api_key chat_url messages model timeout options :
  chat_completion api_key chat_url messages model timeout options =
    match normalize_url chat_url with
    | Err e => mkIO [] (Err e)
    | Ok u =>
        let r := mkRequest POST u
          (dict_display [("Content-Type", "application/json");
                         ("Authorization", "Bearer " +++ api_key)])
          (Some (json_dumps (VDict (payload messages model options))))
          (if (timeout <=? 0)%Z then None else Some timeout) in
        mkIO [r]
          match transport r with
          | Err e => Err e
          | Ok resp =>
              if (status_code resp =? 200)%Z then json_loads (text resp)
              else Err (Exception (text resp))
          end
    end.
Proof.
  rewrite chat_completion_steps. by destruct (normalize_url chat_url).
Qed.

(** C6: the request of [chat_completion] carries no timeout when the given
    timeout is zero or negative, and the given timeout otherwise. *)
Theorem timeout_passed_to_transport api_key chat_url messages model timeout
    options u :
  normalize_url chat_url = Ok u ->
  ((timeout <= 0)%Z ->
     r_timeout <$>
       calls (chat_completion api_key chat_url messages model timeout options)
       = [None])
  /\ ((0 < timeout)%Z ->
     r_timeout <$>
       calls (chat_completion api_key chat_url messages model timeout options)
       = [Some timeout]).
Proof.
  intros Hu. rewrite chat_completion_unfold, Hu.
  cbv zeta. cbn [calls fmap list_fmap r_timeout].
  split; intros Ht.
  - by destruct (Z.leb_spec timeout 0); [|lia].
  - by destruct (Z.leb_spec timeout 0); [lia|].
Qed.

End client_requests.

(** ** The URL helpers: concrete URLs *)

Section url_examples.

Variable _check_bracketed_host : string -> result unit.
Variable normalize_NFKC : string -> string.

#[local] Abbreviation urlparse :=
  (urlparse _check_bracketed_host normalize_NFKC).
#[local] Abbreviation normalize_url :=
  (normalize_url _check_bracketed_host normalize_NFKC).
#[local] Abbreviation is_valid_url :=
  (is_valid_url _check_bracketed_host normalize_NFKC).

Lemma is_valid_url_unfold url :
  is_valid_url url =
    match urlparse url with
    | Ok p => Ok (truthy (scheme p) && truthy (netloc p))
    | Err e => Err e
    end.
Proof.
  unfold is_valid_url. rewrite result_bind_unfold.
  destruct (urlparse url) as [p|e]; [|done].
  cbn [forallb]. by rewrite andb_true_r.
Qed.

Lemma truthy_true s : truthy s = true <-> s <> "".
Proof. by destruct s. Qed.

Lemma truthy_false s : truthy s = false <-> s = "".
Proof. by destruct s. Qed.

(** C7: [is_valid_url] is a function of the URL alone; it returns [True]
    exactly when the URL parses into a non-empty scheme and a non-empty
    network location, and [False] when it parses and one of the two is
    empty. *)
Theorem is_valid_url_iff url :
  (is_valid_url url = Ok true
     <-> exists p, urlparse url = Ok p /\ scheme p <> "" /\ netloc p <> "")
  /\ (is_valid_url url = Ok false
     <-> exists p, urlparse url = Ok p /\ (scheme p = "" \/ netloc p = ""))
  /\ is_valid_url "http://api.example.com" = Ok true
  /\ is_valid_url "api.example.com" = Ok false
  /\ is_valid_url "not a url" = Ok false.
Proof.
  split; [|split; [|by repeat split]]; rewrite is_valid_url_unfold.
  - destruct (urlparse url) as [p|e]; split.
    + intros [= [H1 H2]%andb_true_iff]. exists p.
      by rewrite <- !truthy_true.
    + intros (p' & [= <-] & H1%truthy_true & H2%truthy_true).
      by rewrite H1, H2.
    + done.
    + by intros (p' & [=] & _).
  - destruct (urlparse url) as [p|e]; split.
    + intros [= H%andb_false_iff]. exists p. by rewrite <- !truthy_false.
    + intros (p' & [= <-] & H). rewrite <- !truthy_false in H.
      f_equal. by apply andb_false_iff.
    + done.
    + by intros (p' & [=] & _).
Qed.

(** Four slashes in a row, whatever the two library parameters do: one
    pass leaves three of them, a second pass two. *)
Lemma four_slashes_any_environment :
  normalize_url "http://h/a////b" = Ok "http://h/a///b"
  /\ normalize_url "http://h/a///b" = Ok "http://h/a//b".
Proof. split; reflexivity. Qed.

End url_examples.

(** C1 (counterexample): an option named [model] replaces the explicit
    [model] argument in the payload, since the options are merged last. *)
Lemma status_decides_outcome_witness :
  outcome (Mock.chat_completion "key" "api.example.com/v1/chat/completions"
             [] "gpt-4" 0 ∅) = Ok (VDict {["id" := VStr "x"]})
  /\ outcome (Mock.chat_completion "key" "api.example.com/v1/chat"
             [] "gpt-4" 0 ∅) = Err (Exception "bad request")
  /\ outcome (Mock.valid_models "key" "api.example.com/v2" true)
      = Err (Exception "not found").
Proof.
  split; [|split].
  - refine (proj2 (proj1 (proj1 (status_decides_outcome
              Mock.bracketed_host Mock.nfkc Posix Mock.transport Mock.dumps
              Mock.json_loads "key" "api.example.com/v1/chat/completions"
              [] "gpt-4" 0%Z ∅ true
              (Mock.chat_request
                 "https://api.example.com/v1/chat/completions" None)
              (mkResponse 200 Mock.chat_body) _) _) _) _);
      [reflexivity..|split; reflexivity].
  - refine (proj2 (proj1 (status_decides_outcome
              Mock.bracketed_host Mock.nfkc Posix Mock.transport Mock.dumps
              Mock.json_loads "key" "api.example.com/v1/chat"
              [] "gpt-4" 0%Z ∅ true
              (Mock.chat_request "https://api.example.com/v1/chat" None)
              (mkResponse 400 "bad request") _) _) _);
      [reflexivity..|discriminate].
  - refine (proj2 (status_decides_outcome
              Mock.bracketed_host Mock.nfkc Posix Mock.transport Mock.dumps
              Mock.json_loads "key" "api.example.com/v2"
              [] "gpt-4" 0%Z ∅ true
              (Mock.models_request "https://api.example.com/v2/v1/models")
              (mkResponse 404 "not found") _) _ _);
      [reflexivity..|discriminate].
Defined.

Lemma timeout_passed_to_transport_witness :
  r_timeout <$> calls (Mock.chat_completion "key" "api.example.com" []
                         "gpt-4" 0 ∅) = [None]
  /\ r_timeout <$> calls (Mock.chat_completion "key" "api.example.com" []
                         "gpt-4" 30 ∅) = [Some 30%Z].
Proof.
  split.
  - refine (proj1 (timeout_passed_to_transport
              Mock.bracketed_host Mock.nfkc Mock.transport Mock.json_dumps
              Mock.json_loads "key" "api.example.com" [] "gpt-4" 0%Z ∅
              "https://api.example.com" _) _); [reflexivity|lia].
  - refine (proj2 (timeout_passed_to_transport
              Mock.bracketed_host Mock.nfkc Mock.transport Mock.json_dumps
              Mock.json_loads "key" "api.example.com" [] "gpt-4" 30%Z ∅
              "https://api.example.com" _) _); [reflexivity|lia].
Defined.

Lemma valid_models_ids_witness :
  outcome (Mock.valid_models "key" "api.example.com" true)
    = Ok [VStr "gpt-4"]
  /\ outcome (Mock.valid_models "key" "api.example.com" false)
    = Ok [VStr "gpt-4"; VStr "text-embed"].
Proof.
  split.
  - refine (valid_models_ids
              Mock.bracketed_host Mock.nfkc Posix Mock.transport Mock.json_loads
              "key" "api.example.com" true
              (Mock.models_request "https://api.example.com/v1/models")
              (mkResponse 200 Mock.models_body) _
              [{["id" := VStr "gpt-4"]}; {["id" := VStr "text-embed"]}]
              ["gpt-4"; "text-embed"] _ _ _ _ _ _);
      [reflexivity..|repeat constructor].
  - refine (valid_models_ids
              Mock.bracketed_host Mock.nfkc Posix Mock.transport Mock.json_loads
              "key" "api.example.com" false
              (Mock.models_request "https://api.example.com/v1/models")
              (mkResponse 200 Mock.models_body) _
              [{["id" := VStr "gpt-4"]}; {["id" := VStr "text-embed"]}]
              ["gpt-4"; "text-embed"] _ _ _ _ _ _);
      [reflexivity..|repeat constructor].
Defined.

Lemma valid_models_missing_id_witness :
  (exists msg,
     outcome (Mock.valid_models "key" "broken.example.com" true)
       = Err (TypeError msg))
  /\ (exists l,
     outcome (Mock.valid_models "key" "broken.example.com" false) = Ok l
     /\ VNone ∈ l).
Proof.
  split.
  - refine (valid_models_missing_id
              Mock.bracketed_host Mock.nfkc Posix Mock.transport Mock.json_loads
              "key" "broken.example.com" true
              (Mock.models_request "https://broken.example.com/v1/models")
              (mkResponse 200 Mock.broken_models_body) _
              [{["id" := VStr "gpt-4"]}; {["object" := VStr "model"]}]
              _ _ _ _ _ _);
      [reflexivity..|].
    exists {["object" := VStr "model"]}. split; [|reflexivity].
    apply list_elem_of_further, list_elem_of_here.
  - refine (valid_models_missing_id
              Mock.bracketed_host Mock.nfkc Posix Mock.transport Mock.json_loads
              "key" "broken.example.com" false
              (Mock.models_request "https://broken.example.com/v1/models")
              (mkResponse 200 Mock.broken_models_body) _
              [{["id" := VStr "gpt-4"]}; {["object" := VStr "model"]}]
              _ _ _ _ _ _);
      [reflexivity..|].
    exists {["object" := VStr "model"]}. split; [|reflexivity].
    apply list_elem_of_further, list_elem_of_here.
Defined.

Lemma normalize_url_backslash_witness :
  Mock.normalize_url "api.example.com\v1\chat"
    = Ok "https://api.example.com/v1/chat"
  /\ contains "\" "https://api.example.com/v1/chat" = false.
Proof.
  split; [reflexivity|].
  exact (proj2 (normalize_url_backslash Mock.bracketed_host Mock.nfkc
                  "api.example.com\v1\chat")
               "https://api.example.com/v1/chat" eq_refl).
Defined.



(** C8 (counterexample): the reassembled URL has four slashes in a row, and
    the URL returned still has a triple slash. *)
Lemma normalize_url_keeps_triple_slash :
  Mock.reassembled "http://h/a////b" = Ok "http://h/a////b"
  /\ Mock.normalize_url "http://h/a////b" = Ok "http://h/a///b"
  /\ contains "///" "http://h/a///b" = true.
Proof. repeat split; reflexivity. Qed.

Lemma normalize_url_collapse_witness :
  Mock.normalize_url "api.example.com" = Ok "https://api.example.com"
  /\ contains "///" (replace "///" "//" "https:///api.example.com") = false.
Proof.
  destruct (normalize_url_collapse Mock.bracketed_host Mock.nfkc
              "api.example.com" "https:///api.example.com" eq_refl)
    as (_ & Hno & Hhost).
  split.
  - apply (Hhost "https" "api.example.com"); reflexivity.
  - apply Hno. reflexivity.
Defined.

(** * Further properties of the client *)

Lemma dict_display_pair_lookup {V} (k1 k2 : string) (v1 v2 : V) :
  k1 <> k2 ->
  dict_display [(k1, v1); (k2, v2)] !! k1 = Some v1
  /\ dict_display [(k1, v1); (k2, v2)] !! k2 = Some v2
  /\ dom (dict_display [(k1, v1); (k2, v2)]) = ({[k1; k2]} : gset string).
Proof.
  intros Hne. rewrite dict_display_pair. repeat split.
  - rewrite lookup_insert_ne by done. apply lookup_insert_eq.
  - apply lookup_insert_eq.
  - rewrite !dom_insert_L, dom_empty_L. apply set_eq. intros k.
    rewrite !elem_of_union, !elem_of_singleton, elem_of_empty. tauto.
Qed.

Section client_more.

Variable _check_bracketed_host : string -> result unit.
Variable normalize_NFKC : string -> string.
Variable os_name : platform.
Variable transport : request -> result response.
Variable json_dumps : value -> result string.
Variable json_loads : string -> result value.

#[local] Abbreviation normalize_url :=
  (normalize_url _check_bracketed_host normalize_NFKC).
#[local] Abbreviation chat_completion :=
  (chat_completion _check_bracketed_host normalize_NFKC
                   transport json_dumps json_loads).
#[local] Abbreviation valid_models :=
  (valid_models _check_bracketed_host normalize_NFKC os_name
                transport json_loads).
#[local] Abbreviation os_path_join := (os_path_join os_name).

(** X2: an exception of the transport, and on a 200 answer an exception of
    the JSON codec, is the outcome of the call, unchanged. *)
Theorem collaborator_errors_propagate api_key url messages model timeout
    options gpt_only r e :
  (calls (chat_completion api_key url messages model timeout options) = [r] ->
   transport r = Err e
   \/ (exists resp, transport r = Ok resp /\ status_code resp = 200%Z
                    /\ json_loads (text resp) = Err e) ->
   outcome (chat_completion api_key url messages model timeout options)
     = Err e)
  /\ (calls (valid_models api_key url gpt_only) = [r] ->
     transport r = Err e
     \/ (exists resp, transport r = Ok resp /\ status_code resp = 200%Z
                      /\ json_loads (text resp) = Err e) ->
     outcome (valid_models api_key url gpt_only) = Err e).
Proof.
  rewrite chat_completion_steps, valid_models_unfold. split.
  - destruct (normalize_url url) as [u|e0]; [|done].
    destruct (json_dumps _) as [data|e0]; [|done]. cbv zeta.
    cbn [calls outcome]. intros [= <-] [->|(resp & -> & -> & ->)]; done.
  - destruct (normalize_url _) as [u|e0]; [|done]. cbv zeta.
    cbn [calls outcome]. intros [= <-] [->|(resp & -> & -> & Hj)]; [done|].
    change (200 =? 200)%Z with true. cbv iota. unfold models_of.
    by rewrite Hj.
Qed.

End client_more.

Section client_shape.

Variable _check_bracketed_host : string -> result unit.
Variable normalize_NFKC : string -> string.
Variable os_name : platform.
Variable transport : request -> result response.
Variable json_dumps : value -> string.
Variable json_loads : string -> result value.

#[local] Abbreviation normalize_url :=
  (normalize_url _check_bracketed_host normalize_NFKC).
#[local] Abbreviation chat_completion :=
  (chat_completion _check_bracketed_host normalize_NFKC
                   transport (fun v => Ok (json_dumps v)) json_loads).
#[local] Abbreviation valid_models :=
  (valid_models _check_bracketed_host normalize_NFKC os_name
                transport json_loads).
#[local] Abbreviation os_path_join := (os_path_join os_name).

(** X3: the request of [chat_completion] is a POST to the normalised URL
    with exactly the headers [Content-Type] and [Authorization] (the bearer
    key) and the serialised payload as body; the request of [valid_models]
    is a GET to the normalised models URL with the same two headers, no body
    and no timeout. *)
Theorem requests_sent api_key url messages model timeout options gpt_only u :
  (normalize_url url = Ok u ->
   exists r,
     calls (chat_completion api_key url messages model timeout options) = [r]
     /\ r_method r = POST /\ r_url r = u
     /\ r_headers r !! "Authorization" = Some ("Bearer " +++ api_key)
     /\ r_headers r !! "Content-Type" = Some "application/json"
     /\ dom (r_headers r) = {["Content-Type"; "Authorization"]}
     /\ r_data r = Some (json_dumps (VDict (payload messages model options))))
  /\ (normalize_url (os_path_join url "v1/models") = Ok u ->
     exists r,
       calls (valid_models api_key url gpt_only) = [r]
       /\ r_method r = GET /\ r_url r = u
       /\ r_headers r !! "Authorization" = Some ("Bearer " +++ api_key)
       /\ r_headers r !! "Content-Type" = Some "application/json"
       /\ dom (r_headers r) = {["Authorization"; "Content-Type"]}
       /\ r_data r = None /\ r_timeout r = None).
Proof.
  rewrite chat_completion_unfold, valid_models_unfold.
  split; intros ->; cbv zeta; eexists; (split; [reflexivity|]);
    cbn [r_method r_url r_headers r_data r_timeout].
  - destruct (dict_display_pair_lookup "Content-Type" "Authorization"
                "application/json" ("Bearer " +++ api_key)) as (?&?&?); done.
  - destruct (dict_display_pair_lookup "Authorization" "Content-Type"
                ("Bearer " +++ api_key) "application/json") as (?&?&?); done.
Qed.

End client_shape.

Lemma collaborator_errors_propagate_witness :
  outcome (chat_completion Mock.bracketed_host Mock.nfkc Stub.offline
             Mock.dumps Mock.json_loads "key" "api.example.com" []
             "gpt-4" 0 ∅)
    = Err (RequestException "connection refused")
  /\ outcome (valid_models Mock.bracketed_host Mock.nfkc Posix
                (Stub.answer (mkResponse 200 "<html>"))
                Mock.json_loads "key" "api.example.com" true)
    = Err (JSONDecodeError "Expecting value").
Proof.
  split.
  - refine (proj1 (collaborator_errors_propagate
              Mock.bracketed_host Mock.nfkc Posix Stub.offline Mock.dumps
              Mock.json_loads "key" "api.example.com" [] "gpt-4" 0%Z ∅ true
              (Mock.chat_request "https://api.example.com" None)
              (RequestException "connection refused")) _ _);
      [reflexivity|by left].
  - refine (proj2 (collaborator_errors_propagate
              Mock.bracketed_host Mock.nfkc Posix
              (Stub.answer (mkResponse 200 "<html>")) Mock.dumps
              Mock.json_loads "key" "api.example.com" [] "gpt-4" 0%Z ∅ true
              (Mock.models_request "https://api.example.com/v1/models")
              (JSONDecodeError "Expecting value")) _ _);
      [reflexivity|right].
    exists (mkResponse 200 "<html>"). by repeat split.
Defined.

Lemma requests_sent_witness :
  exists r,
    calls (Mock.chat_completion "key" "api.example.com" [] "gpt-4" 0 ∅) = [r]
    /\ r_method r = POST /\ r_url r = "https://api.example.com"
    /\ r_headers r !! "Authorization" = Some "Bearer key".
Proof.
  destruct (proj1 (requests_sent Mock.bracketed_host Mock.nfkc Posix Mock.transport
                     Mock.json_dumps Mock.json_loads "key" "api.example.com"
                     [] "gpt-4" 0%Z ∅ true "https://api.example.com")
                  eq_refl) as (r & H1 & H2 & H3 & H4 & _).
  exists r. by repeat split.
Defined.

Lemma comprehension_get_not_dict key (l : list value) v :
  v ∈ l -> is_dict v = false ->
  exists msg, comprehension (py_get key) l = Err (AttributeError msg).
Proof.
  induction l as [|x l IH]; intros Hin Hv; [by apply elem_of_nil in Hin|].
  cbn [comprehension]. rewrite result_bind_unfold.
  destruct x; try (cbn [py_get]; eauto; fail).
  apply elem_of_cons in Hin as [->|Hin]; [done|].
  destruct (IH Hin Hv) as [msg ->]. cbn [py_get].
  rewrite result_bind_unfold. eauto.
Qed.

Lemma comprehension_if_sublist {A} (p : A -> result bool) (l l' : list A) :
  comprehension_if p l = Ok l' ->
  sublist l' l /\ Forall (fun x => p x = Ok true) l'.
Proof.
  revert l'. induction l as [|x l IH]; intros l'; cbn [comprehension_if].
  - intros [= <-]. split; constructor.
  - rewrite result_bind_unfold. destruct (p x) as [b|] eqn:Hx; [|done].
    rewrite result_bind_unfold.
    destruct (comprehension_if p l) as [ys|]; [|done].
    destruct (IH ys eq_refl) as [Hs Hall]. intros [= <-]. destruct b.
    + split; [by constructor|]. by constructor.
    + split; [by constructor|done].
Qed.

Section path_facts.

#[local] Arguments String.append !s1 s2 : simpl nomatch.

Lemma length_snoc c s : String.length (s +++ String c "") = S (String.length s).
Proof. induction s as [|d s IH]; cbn; [done|]. by rewrite IH. Qed.

Lemma rfind_snoc c s : rfind c (s +++ String c "") = Some (String.length s).
Proof.
  induction s as [|d s IH]; cbn.
  - by rewrite Ascii.eqb_refl.
  - by rewrite IH.
Qed.

Lemma endswith_snoc c s : endswith c (s +++ String c "") = true.
Proof.
  unfold endswith. rewrite rfind_snoc, length_snoc. apply Nat.eqb_refl.
Qed.

Lemma replace_char_app c new a b :
  replace (String c "") new (a +++ b)
    = replace (String c "") new a +++ replace (String c "") new b.
Proof.
  induction a as [|d a IH]; [done|]. cbn [String.append].
  rewrite !replace_char_cons, IH. destruct (Ascii.eqb d c); [|done].
  by rewrite app_assoc.
Qed.

Lemma posixpath_join_trailing_slash base tail :
  truthy base = true -> endswith "/" base = false ->
  posixpath_join (base +++ "/") tail = posixpath_join base tail.
Proof.
  intros Hb He. unfold posixpath_join. destruct (startswith "/" tail); [done|].
  rewrite endswith_snoc, orb_true_r, Hb, He. cbn [negb orb].
  apply app_assoc.
Qed.

Lemma last_char_cons c s :
  last_char (String c s)
    = match s with "" => Some c | String _ _ => last_char s end.
Proof.
  unfold last_char. destruct s as [|d s]; [done|].
  change (String.length (String c (String d s)) - 1)
    with (S (String.length s)).
  change (String.length (String d s) - 1) with (String.length s - 0).
  by rewrite Nat.sub_0_r.
Qed.

Lemma last_char_snoc c s : last_char (s +++ String c "") = Some c.
Proof.
  induction s as [|d s IH]; [done|]. cbn [String.append].
  rewrite last_char_cons, IH. by destruct s.
Qed.

Lemma endswith_last_char d s :
  endswith d s = from_option (fun c => Ascii.eqb c d) false (last_char s).
Proof.
  induction s as [|c s IH]; [done|]. rewrite last_char_cons.
  destruct s as [|a s].
  - unfold endswith. cbn. by destruct (Ascii.eqb c d).
  - rewrite <- IH. unfold endswith. cbn [rfind String.length].
    destruct (rfind d s) as [i|].
    + by destruct (Ascii.eqb a d).
    + destruct (Ascii.eqb a d); [done|]. by destruct (Ascii.eqb c d).
Qed.

Lemma is_sep_last_char s :
  from_option is_sep false (last_char s) = endswith "\" s || endswith "/" s.
Proof. rewrite !endswith_last_char. by destruct (last_char s). Qed.

Lemma ntpath_splitdrive_no_drive p :
  no_drive p = true -> ntpath_splitdrive p = ("", p).
Proof.
  unfold no_drive, ntpath_splitdrive. intros [H0 H1]%andb_true_iff.
  destruct p as [|c [|d r]]; [done..|].
  cbn [String.length Nat.leb String.get from_option] in *.
  apply negb_true_iff in H0, H1. unfold is_sep in H0.
  apply orb_false_iff in H0 as [Hback Hslash].
  rewrite !replace_char_cons, Hslash.
  assert (forall x, String.eqb (slice 0 2 (String c x)) "\\" = false) as ->.
  { intros x. unfold slice. cbn. by rewrite Hback. }
  assert (forall x, slice 1 2 (String c x) = slice_to 1 x) as ->
    by (intros x; by destruct x).
  rewrite Ascii.eqb_sym in H1.
  destruct (Ascii.eqb d "/") eqn:Hd; cbn; [done|]. by rewrite H1.
Qed.

Lemma no_drive_slash base :
  truthy base = true -> no_drive base = true -> no_drive (base +++ "/") = true.
Proof. by destruct base as [|c [|d r]]. Qed.

Lemma ntpath_join_models base :
  no_drive base = true ->
  ntpath_join base "v1/models"
    = (if truthy base && negb (endswith "\" base || endswith "/" base)
       then base +++ "\" else base) +++ "v1/models".
Proof.
  intros Hd. unfold ntpath_join.
  rewrite (ntpath_splitdrive_no_drive base Hd).
  change (ntpath_splitdrive "v1/models") with ("", "v1/models").
  cbv beta iota.
  change (truthy "v1/models"
          && from_option is_sep false (String.get 0 "v1/models")) with false.
  cbn [truthy andb]. cbv iota. rewrite is_sep_last_char.
  by rewrite !andb_false_r.
Qed.

End path_facts.

Section models_more.

Variable _check_bracketed_host : string -> result unit.
Variable normalize_NFKC : string -> string.
Variable os_name : platform.
Variable transport : request -> result response.
Variable json_loads : string -> result value.

#[local] Abbreviation valid_models :=
  (valid_models _check_bracketed_host normalize_NFKC os_name
                transport json_loads).

(** X4: on a 200 answer, [valid_models] raises [AttributeError] when the
    body is not an object or an entry of its [data] list is not an object,
    raises [TypeError] when the body has no [data], and returns the empty
    list when [data] is the empty list. *)
Theorem valid_models_malformed_body api_key url gpt_only r resp v :
  calls (valid_models api_key url gpt_only) = [r] ->
  transport r = Ok resp ->
  status_code resp = 200%Z ->
  json_loads (text resp) = Ok v ->
  (is_dict v = false ->
   outcome (valid_models api_key url gpt_only)
     = Err (AttributeError
              ("'" +++ type_name v +++ "' object has no attribute 'get'")))
  /\ (forall d, v = VDict d -> d !! "data" = None ->
       outcome (valid_models api_key url gpt_only)
         = Err (TypeError "'NoneType' object is not iterable"))
  /\ (forall d, v = VDict d -> d !! "data" = Some (VList []) ->
       outcome (valid_models api_key url gpt_only) = Ok [])
  /\ (forall d entries x,
       v = VDict d -> d !! "data" = Some (VList entries) ->
       x ∈ entries -> is_dict x = false ->
       exists msg,
         outcome (valid_models api_key url gpt_only)
           = Err (AttributeError msg)).
Proof.
  intros Hr Ht Hs Hj.
  rewrite (valid_models_outcome _ _ _ _ _ _ _ _ _ _ Hr Ht), Hs, Hj.
  change (200 =? 200)%Z with true. cbv iota. unfold models_of.
  rewrite !result_bind_unfold. repeat split.
  - by destruct v.
  - intros d -> Hd. cbn [py_get]. by rewrite Hd.
  - intros d -> Hd. cbn [py_get]. rewrite Hd. cbn. by destruct gpt_only.
  - intros d entries x -> Hd Hx Hnd. cbn [py_get]. rewrite Hd.
    cbn [from_option id py_iter].
    destruct (comprehension_get_not_dict "id" _ _ Hx Hnd) as [msg ->]. eauto.
Qed.

(** X5: [gpt_only] does not change the request that [valid_models] sends;
    when [valid_models] succeeds with [gpt_only], it succeeds without, and
    what it returns with [gpt_only] is a sublist of what it returns without,
    every member of which is a string that contains [gpt]. *)
Theorem gpt_only_is_a_sublist api_key url :
  calls (valid_models api_key url true)
    = calls (valid_models api_key url false)
  /\ forall l',
       outcome (valid_models api_key url true) = Ok l' ->
       exists l,
         outcome (valid_models api_key url false) = Ok l
         /\ sublist l' l
         /\ Forall (fun x => py_in "gpt" x = Ok true) l'.
Proof.
  rewrite !valid_models_unfold.
  destruct (normalize_url _ _ _) as [u|e]; [|done].
  cbv zeta. cbn [outcome calls]. split; [done|]. intros l'.
  destruct (transport _) as [resp|e]; [|done].
  destruct (status_code resp =? 200)%Z; [|done].
  unfold models_of. rewrite !result_bind_unfold.
  destruct (json_loads _) as [data|e]; [|done].
  destruct (py_get "data" data) as [d|e]; [|done].
  rewrite !result_bind_unfold.
  destruct (py_iter d) as [entries|e]; [|done].
  rewrite !result_bind_unfold.
  destruct (comprehension _ _) as [ml|e]; [|done].
  intros H. exists ml. split; [done|]. by apply comprehension_if_sublist.
Qed.

Lemma normalize_url_replaced url1 url2 :
  replace "\" "/" url1 = replace "\" "/" url2 ->
  normalize_url _check_bracketed_host normalize_NFKC url1
    = normalize_url _check_bracketed_host normalize_NFKC url2.
Proof. intros H. unfold normalize_url. by rewrite H. Qed.

Lemma models_url_trailing_slash base :
  truthy base = true ->
  endswith "/" base = false ->
  (os_name = Windows ->
   endswith "\" base = false /\ no_drive base = true) ->
  normalize_url _check_bracketed_host normalize_NFKC
    (os_path_join os_name (base +++ "/") "v1/models")
  = normalize_url _check_bracketed_host normalize_NFKC
      (os_path_join os_name base "v1/models").
Proof.
  intros Hb He Hw. destruct os_name; cbn [os_path_join].
  - by rewrite posixpath_join_trailing_slash.
  - destruct (Hw eq_refl) as [Hback Hd].
    rewrite (ntpath_join_models base Hd).
    rewrite (ntpath_join_models _ (no_drive_slash base Hb Hd)).
    rewrite Hb, He, Hback, (endswith_snoc "/" base), orb_true_r.
    assert (truthy (base +++ "/") = true) as -> by by destruct base.
    cbn [andb orb negb]. apply normalize_url_replaced.
    rewrite !app_assoc, !replace_char_app. by f_equal.
Qed.

(** X6: a slash at the end of a non-empty base URL makes no difference to
    [valid_models]: the same request is sent and the same outcome comes
    back. On a POSIX system this holds for every base URL that does not end
    in a slash already; on Windows, where [os.path.join] treats drives and
    the backslash too, for one that moreover does not end in a backslash,
    starts with no separator and has no colon in second place. *)
Theorem base_url_trailing_slash api_key base gpt_only :
  truthy base = true ->
  endswith "/" base = false ->
  (os_name = Windows ->
   endswith "\" base = false /\ no_drive base = true) ->
  valid_models api_key (base +++ "/") gpt_only
    = valid_models api_key base gpt_only.
Proof.
  intros Hb He Hw.
  by rewrite !valid_models_unfold, models_url_trailing_slash.
Qed.

End models_more.

Lemma valid_models_malformed_body_witness :
  outcome (valid_models Mock.bracketed_host Mock.nfkc Posix
             (Stub.answer (mkResponse 200 "[]"))
             (Stub.parsed (Ok (VList []))) "key" "api.example.com" false)
    = Err (AttributeError "'list' object has no attribute 'get'")
  /\ outcome (valid_models Mock.bracketed_host Mock.nfkc Posix
                (Stub.answer (mkResponse 200 "{}"))
                (Stub.parsed (Ok (VDict ∅))) "key" "api.example.com" false)
    = Err (TypeError "'NoneType' object is not iterable").
Proof.
  split.
  - refine (proj1 (valid_models_malformed_body
              Mock.bracketed_host Mock.nfkc Posix
              (Stub.answer (mkResponse 200 "[]"))
              (Stub.parsed (Ok (VList []))) "key" "api.example.com" false
              (Mock.models_request "https://api.example.com/v1/models")
              (mkResponse 200 "[]") (VList []) _ _ _ _) _);
      reflexivity.
  - refine (proj1 (proj2 (valid_models_malformed_body
              Mock.bracketed_host Mock.nfkc Posix
              (Stub.answer (mkResponse 200 "{}"))
              (Stub.parsed (Ok (VDict ∅))) "key" "api.example.com" false
              (Mock.models_request "https://api.example.com/v1/models")
              (mkResponse 200 "{}") (VDict ∅) _ _ _ _)) ∅ _ _);
      reflexivity.
Defined.

Lemma gpt_only_is_a_sublist_witness :
  calls (Mock.valid_models "key" "api.example.com" true)
    = calls (Mock.valid_models "key" "api.example.com" false)
  /\ exists l,
       outcome (Mock.valid_models "key" "api.example.com" false) = Ok l
       /\ sublist [VStr "gpt-4"] l.
Proof.
  destruct (gpt_only_is_a_sublist Mock.bracketed_host Mock.nfkc Posix
              Mock.transport Mock.json_loads "key" "api.example.com")
    as [Hcalls Hsub].
  destruct (Hsub [VStr "gpt-4"] eq_refl) as (l & H1 & H2 & _).
  split; [exact Hcalls|]. exists l. by split.
Defined.

Lemma base_url_trailing_slash_witness :
  Mock.valid_models "key" "api.example.com/" true
    = Mock.valid_models "key" "api.example.com" true
  /\ valid_models Mock.bracketed_host Mock.nfkc Windows Mock.transport
       Mock.json_loads "key" "api.example.com/" true
     = valid_models Mock.bracketed_host Mock.nfkc Windows Mock.transport
         Mock.json_loads "key" "api.example.com" true.
Proof.
  split.
  - refine (base_url_trailing_slash Mock.bracketed_host Mock.nfkc Posix
              Mock.transport Mock.json_loads "key" "api.example.com" true
              eq_refl eq_refl _).
    discriminate.
  - exact (base_url_trailing_slash Mock.bracketed_host Mock.nfkc Windows
             Mock.transport Mock.json_loads "key" "api.example.com" true
             eq_refl eq_refl (fun _ => conj eq_refl eq_refl)).
Defined.

(** * Further properties of the URL helpers *)

Section url_more.

#[local] Arguments String.append !s1 s2 : simpl nomatch.

Variable _check_bracketed_host : string -> result unit.
Variable normalize_NFKC : string -> string.

#[local] Abbreviation urlparse :=
  (urlparse _check_bracketed_host normalize_NFKC).
#[local] Abbreviation normalize_url :=
  (normalize_url _check_bracketed_host normalize_NFKC).
#[local] Abbreviation is_valid_url :=
  (is_valid_url _check_bracketed_host normalize_NFKC).
#[local] Abbreviation netloc_checks :=
  (netloc_checks _check_bracketed_host normalize_NFKC).

(** X7: [is_valid_url] returns [True] exactly on a URL that reads, after
    the leading blanks and the tabs and line ends are dropped,
    [scheme://host] followed by nothing or by [/], [?] or [#]: the scheme
    starts with an ASCII letter and has scheme characters only, the host is
    not empty and passes the checks of [urlsplit]. *)
Theorem is_valid_url_shape url :
  is_valid_url url = Ok true <->
  exists a n t,
    clean url = a +++ "://" +++ n +++ t
    /\ scheme_ok a = true
    /\ truthy n = true
    /\ all_chars (fun c => negb (is_delim c)) n = true
    /\ tail_ok t = true
    /\ netloc_checks n = Ok tt.
Proof.
  rewrite is_valid_url_unfold. split.
  - destruct (urlparse url) as [p|e] eqn:Hp; [|done].
    intros [= [Hs Hn]%andb_true_iff].
    destruct (urlparse_host_inv _ _ _ _ Hp Hs Hn)
      as (a & t & Hy & Ha & _ & Hnd & Ht & Hck & _).
    by exists a, (netloc p), t.
  - intros (a & n & t & Hy & Ha & Hn & Hnd & Ht & Hck).
    rewrite (urlparse_shape _ _ url a n t Hy Ha Hnd Ht), Hck.
    rewrite result_bind_unfold.
    destruct (split_tail (lower a) t) as [[[pth prm] q] f].
    cbn [scheme netloc]. rewrite Hn.
    destruct (scheme_ok_facts a Ha) as (_ & _ & _ & _ & _ & c & s & -> & _).
    done.
Qed.

(** X8: normalising a valid URL gives a valid URL. The result is the scheme,
    [://], the host, and the rest with every [///] replaced; parsed again it
    has the same scheme and host, and the path, parameters, query and
    fragment with every [///] replaced. *)
Theorem normalize_url_of_valid url :
  is_valid_url (replace "\" "/" url) = Ok true ->
  exists p u,
    urlparse (replace "\" "/" url) = Ok p
    /\ normalize_url url = Ok u
    /\ u = scheme p +++ "://" +++ netloc p
             +++ replace "///" "//"
                   (join_tail (path p, params p, query p, fragment p))
    /\ urlparse u
       = Ok (mkParseResult (scheme p) (netloc p)
               (replace "///" "//" (path p)) (replace "///" "//" (params p))
               (replace "///" "//" (query p))
               (replace "///" "//" (fragment p)))
    /\ is_valid_url u = Ok true.
Proof.
  rewrite is_valid_url_unfold.
  destruct (urlparse (replace "\" "/" url)) as [p|e] eqn:Hp; [|done].
  intros [= [Hs' Hn']%andb_true_iff].
  destruct (urlparse_host_inv _ _ _ _ Hp Hs' Hn')
    as (a & t & Hy & Ha & Hsch & Hnd & Ht & Hck & Hst).
  destruct p as [sch n pth prm q f].
  cbn [scheme netloc path params query fragment] in *. subst sch.
  destruct (scheme_ok_facts a Ha)
    as (Ha' & Hll & _ & _ & Hslash & c & s & Hc & Hc0).
  pose proof (split_tail_path _ _ _ _ _ _ Ht Hst) as Hpath.
  set (J := join_tail (pth, prm, q, f)) in *.
  assert (urlunparse (mkParseResult (lower a) n pth prm q f)
          = lower a +++ String ":" ("//" +++ n +++ J)) as Hun
    by by apply urlunparse_host.
  set (u := lower a +++ String ":" ("//" +++ n +++ replace "///" "//" J)).
  assert (normalize_url url = Ok u) as Hu.
  { unfold normalize_url. rewrite Hp, result_bind_unfold.
    cbn [scheme]. rewrite Hs'. cbn [negb]. rewrite Hun.
    f_equal. by apply collapse_host. }
  assert (clean u = u) as Hclean.
  { subst u. rewrite Hc in *. cbn [String.append] in *. apply (clean_id _check_bracketed_host normalize_NFKC); [done|].
    apply (all_chars_normalize_url _check_bracketed_host normalize_NFKC safe_char lower_char_safe eq_refl url);
      [apply (clean_safe _check_bracketed_host normalize_NFKC)|done]. }
  assert (tail_ok (replace "///" "//" J) = true) as Ht2
    by by apply tail_ok_collapse, tail_ok_join.
  pose proof (split_tail_collapse _ _ _ _ _ _ (split_join_tail _ _ _ Hst))
    as Hst2. fold J in Hst2.
  assert (urlparse u
          = Ok (mkParseResult (lower a) n
                  (replace "///" "//" pth) (replace "///" "//" prm)
                  (replace "///" "//" q) (replace "///" "//" f))) as Hpu.
  { rewrite (urlparse_shape _ _ u (lower a) n (replace "///" "//" J));
      [|by rewrite Hclean|done..].
    by rewrite Hck, !result_bind_unfold, Hll, Hst2. }
  exists (mkParseResult (lower a) n pth prm q f), u.
  cbn [scheme netloc path params query fragment]. fold J.
  repeat split; [done..|].
  rewrite is_valid_url_unfold, Hpu. cbn [scheme netloc]. by rewrite Hs', Hn'.
Qed.

(** *** Blanks, tabs and line ends *)

Lemma blank_char_facts c :
  blank_char c = true -> Ascii.eqb c "\" = false.
Proof. destruct c as [[] [] [] [] [] [] [] []]; vm_compute; done. Qed.

Lemma unsafe_char_facts c :
  safe_char c = false ->
  (c = "009" \/ c = "013" \/ c = "010")%char
  /\ blank_char c = true /\ Ascii.eqb c "\" = false.
Proof.
  destruct c as [[] [] [] [] [] [] [] []]; vm_compute; intros H;
    try discriminate H; repeat split; auto.
Qed.

Lemma lstrip_blanks ws s :
  all_chars blank_char ws = true ->
  lstrip _WHATWG_C0_CONTROL_OR_SPACE (ws +++ s)
    = lstrip _WHATWG_C0_CONTROL_OR_SPACE s.
Proof.
  induction ws as [|c ws IH]; [done|]. cbn [all_chars String.append lstrip].
  intros [Hc Hws]%andb_true_iff. unfold blank_char in Hc. rewrite Hc. auto.
Qed.

Lemma clean_blanks ws s :
  all_chars blank_char ws = true -> clean (ws +++ s) = clean s.
Proof. intros H. by rewrite !clean_unfold, lstrip_blanks. Qed.

Lemma backslash_blanks ws s :
  all_chars blank_char ws = true ->
  replace "\" "/" (ws +++ s) = ws +++ replace "\" "/" s.
Proof.
  intros H. rewrite replace_char_app. f_equal.
  apply replace_char_absent, contains_char_false.
  apply (all_chars_impl blank_char); [|done].
  intros c Hc. by rewrite (blank_char_facts c Hc).
Qed.

Lemma clean_unsafe a c b :
  safe_char c = false -> clean (a +++ String c b) = clean (a +++ b).
Proof.
  intros Hc. destruct (unsafe_char_facts c Hc) as (Hcases & Hb & _).
  rewrite !clean_unfold. induction a as [|d a IH].
  - cbn [String.append lstrip]. unfold blank_char in Hb. by rewrite Hb.
  - cbn [String.append lstrip].
    destruct (contains (String d "") _WHATWG_C0_CONTROL_OR_SPACE); [done|].
    change (String d (a +++ String c b))
      with (String d a +++ String c b).
    change (String d (a +++ b)) with (String d a +++ b).
    rewrite !replace_char_app. f_equal.
    destruct Hcases as [-> | [-> | ->]];
      repeat (rewrite replace_char_cons; simpl (Ascii.eqb _ _); cbv iota;
              cbn [String.append]); done.
Qed.

Lemma backslash_unsafe a c b :
  safe_char c = false ->
  replace "\" "/" (a +++ String c b)
    = replace "\" "/" a +++ String c (replace "\" "/" b).
Proof.
  intros Hc. destruct (unsafe_char_facts c Hc) as (_ & _ & Hb).
  by rewrite replace_char_app, replace_char_cons, Hb.
Qed.

Lemma urlparse_clean url1 url2 :
  clean url1 = clean url2 -> urlparse url1 = urlparse url2.
Proof. intros H. by rewrite !urlparse_eq, H. Qed.

(** X9: blanks (the characters up to U+0020) in front of a URL are
    ignored by [is_valid_url] and by [normalize_url]. *)
Theorem leading_blanks_ignored ws url :
  all_chars blank_char ws = true ->
  is_valid_url (ws +++ url) = is_valid_url url
  /\ normalize_url (ws +++ url) = normalize_url url.
Proof.
  intros H. split.
  - unfold is_valid_url. by rewrite (urlparse_clean _ url (clean_blanks _ _ H)).
  - unfold normalize_url. rewrite backslash_blanks by done.
    by rewrite (urlparse_clean _ (replace "\" "/" url) (clean_blanks _ _ H)).
Qed.

(** X10: a tab, a carriage return or a line feed anywhere in a URL is
    ignored by [is_valid_url] and by [normalize_url]. *)
Theorem tab_and_line_ends_ignored a c b :
  safe_char c = false ->
  is_valid_url (a +++ String c b) = is_valid_url (a +++ b)
  /\ normalize_url (a +++ String c b) = normalize_url (a +++ b).
Proof.
  intros H. split.
  - unfold is_valid_url.
    by rewrite (urlparse_clean _ (a +++ b) (clean_unsafe _ _ _ H)).
  - unfold normalize_url. rewrite backslash_unsafe by done.
    rewrite replace_char_app.
    by rewrite (urlparse_clean _ _ (clean_unsafe _ _ _ H)).
Qed.

(** X11: what [normalize_url] returns has no tab, no carriage return and
    no line feed. *)
Theorem normalize_url_no_tab_or_line_end url u :
  normalize_url url = Ok u ->
  contains (String "009" "") u = false
  /\ contains (String "013" "") u = false
  /\ contains (String "010" "") u = false.
Proof.
  intros Hu. apply (safe_char_contains _check_bracketed_host normalize_NFKC).
  apply (all_chars_normalize_url _check_bracketed_host normalize_NFKC
           safe_char lower_char_safe eq_refl url); [|done].
  apply (clean_safe _check_bracketed_host normalize_NFKC).
Qed.

(** *** Exceptions *)

Lemma plain_char_facts c :
  plain_char c = true ->
  isascii_char c = true
  /\ negb (Ascii.eqb c "[") = true /\ negb (Ascii.eqb c "]") = true.
Proof.
  unfold plain_char. by intros [[? ?]%andb_true_iff ?]%andb_true_iff.
Qed.

Lemma plain_char_lower c :
  contains (String c "") scheme_chars = true -> plain_char (lower_char c) = true.
Proof. destruct c as [[] [] [] [] [] [] [] []]; vm_compute; done. Qed.

Lemma isascii_all_chars s : isascii s = all_chars isascii_char s.
Proof. induction s as [|c s IH]; [done|]. cbn. by rewrite IH. Qed.

Lemma all_chars_span_netloc P s n t :
  all_chars P s = true -> span_netloc s = (n, t) ->
  all_chars P n = true /\ all_chars P t = true.
Proof.
  intros Hs Hn. apply span_netloc_app in Hn as (-> & _ & _).
  rewrite all_chars_app in Hs. by apply andb_true_iff in Hs.
Qed.

Lemma netloc_checks_plain n :
  all_chars plain_char n = true -> netloc_checks n = Ok tt.
Proof.
  intros Hn. unfold netloc_checks, _checknetloc.
  assert (contains "[" n = false) as ->.
  { apply contains_char_false, (all_chars_impl plain_char); [|done].
    intros c Hc. by destruct (plain_char_facts c Hc) as (_ & ? & _). }
  assert (contains "]" n = false) as ->.
  { apply contains_char_false, (all_chars_impl plain_char); [|done].
    intros c Hc. by destruct (plain_char_facts c Hc) as (_ & _ & ?). }
  assert (isascii n = true) as ->.
  { rewrite isascii_all_chars. apply (all_chars_impl plain_char); [|done].
    intros c Hc. by destruct (plain_char_facts c Hc) as (? & _ & _). }
  cbn [andb orb negb]. rewrite result_bind_unfold. by rewrite orb_true_r.
Qed.

Lemma urlparse_plain url :
  all_chars plain_char url = true -> exists p, urlparse url = Ok p.
Proof.
  intros Hurl. apply all_chars_clean in Hurl. rewrite urlparse_eq.
  destruct (split_scheme (clean url)) as [sch r1] eqn:Hs.
  destruct (all_chars_split_scheme _ plain_char_lower _ _ _ Hurl Hs)
    as [_ Hr1].
  destruct (String.prefix "//" r1).
  - destruct (span_netloc (slice_from 2 r1)) as [n t] eqn:Hn.
    destruct (all_chars_slice plain_char 2 r1 Hr1) as [_ Hr2].
    destruct (all_chars_span_netloc _ _ _ _ Hr2 Hn) as [Hpn _].
    rewrite (netloc_checks_plain n Hpn), result_bind_unfold.
    destruct (split_tail sch t) as [[[pth prm] q] f]. eauto.
  - destruct (split_tail sch r1) as [[[pth prm] q] f]. eauto.
Qed.

(** X12: on an ASCII URL without square brackets neither [is_valid_url]
    nor [normalize_url] raises. *)
Theorem plain_url_never_raises url :
  all_chars plain_char url = true ->
  (exists b, is_valid_url url = Ok b)
  /\ (exists u, normalize_url url = Ok u).
Proof.
  intros Hurl. split.
  - unfold is_valid_url. destruct (urlparse_plain url Hurl) as [p ->]. eauto.
  - unfold normalize_url.
    destruct (urlparse_plain (replace "\" "/" url)) as [p ->]; [|eauto].
    by apply all_chars_replace.
Qed.

(** *** A host or a path without a scheme *)

Lemma host_char_facts c :
  host_char c = true ->
  blank_char c = false /\ safe_char c = true
  /\ Ascii.eqb c "\" = false /\ Ascii.eqb c ":" = false
  /\ Ascii.eqb c ";" = false /\ Ascii.eqb c "?" = false
  /\ Ascii.eqb c "#" = false.
Proof. destruct c as [[] [] [] [] [] [] [] []]; vm_compute; done. Qed.

Lemma host_char_absent y :
  all_chars host_char y = true ->
  all_chars safe_char y = true
  /\ contains "\" y = false /\ contains ":" y = false
  /\ contains ";" y = false /\ contains "?" y = false
  /\ contains "#" y = false.
Proof.
  intros Hy. rewrite !contains_char_false.
  repeat split; apply (all_chars_impl host_char); try done;
    intros c Hc; destruct (host_char_facts c Hc) as (?&?&?&?&?&?&?);
    by rewrite ?negb_true_iff.
Qed.

Lemma clean_host y : all_chars host_char y = true -> clean y = y.
Proof.
  intros Hy. destruct y as [|c s]; [done|].
  apply (clean_id _check_bracketed_host normalize_NFKC).
  - cbn [all_chars] in Hy. apply andb_true_iff in Hy as [Hc _].
    by destruct (host_char_facts c Hc) as (? & _).
  - by destruct (host_char_absent _ Hy) as (? & _).
Qed.

Lemma prefix_double_false y :
  String.prefix "/" y = false -> String.prefix "//" y = false.
Proof.
  destruct y as [|c s]; [done|]. rewrite prefix_char, prefix_cons.
  by intros ->.
Qed.

Lemma urlparse_host_only y :
  all_chars host_char y = true -> String.prefix "/" y = false ->
  urlparse y = Ok (mkParseResult "" "" y "" "" "").
Proof.
  intros Hy Hslash.
  destruct (host_char_absent y Hy) as (_ & _ & Hcolon & Hsemi & Hq & Hf).
  rewrite urlparse_eq, (clean_host y Hy). unfold split_scheme.
  rewrite (proj2 (cut_None ":" y) Hcolon), (prefix_double_false y Hslash).
  unfold split_tail.
  rewrite (proj2 (cut_None "#" y) Hf). cbn [from_option id].
  rewrite (proj2 (cut_None "?" y) Hq). cbn [from_option id].
  rewrite (psplit_None_no_semicolon y Hsemi).
  by destruct (in_list "" uses_params).
Qed.

Lemma normalize_url_host_only y :
  all_chars host_char y = true -> String.prefix "/" y = false ->
  contains "///" y = false ->
  normalize_url y = Ok ("https://" +++ y).
Proof.
  intros Hy Hslash H3.
  destruct (host_char_absent y Hy) as (_ & Hback & _).
  unfold normalize_url.
  rewrite (replace_char_absent _ _ _ Hback), (urlparse_host_only y Hy Hslash).
  rewrite result_bind_unfold. cbn [scheme truthy negb].
  unfold _replace_scheme, urlunparse, urlunsplit.
  cbn [scheme netloc path params query fragment truthy].
  rewrite slice_to_2, slice_to_1, (prefix_double_false y Hslash), Hslash.
  change (in_list "https" uses_netloc) with true. cbn [orb andb negb].
  f_equal. destruct y as [|c s]; [done|]. cbn [truthy andb].
  change ("https" +++ ":" +++ "//" +++ "" +++ "/" +++ String c s)
    with ("https:" +++ "///" +++ String c s).
  rewrite collapse_prefix by done.
  by rewrite collapse_triple, (collapse_id _ H3).
Qed.

(** X13: a URL without scheme that is made of characters above U+0020
    other than [\ : ; ? #], does not start with a slash and has no [///],
    is returned by [normalize_url] with [https://] in front; when it is
    not empty, ASCII and without square brackets, the result is a valid
    URL, while the URL itself is not. *)
Theorem scheme_less_url_gets_https y :
  all_chars host_char y = true ->
  String.prefix "/" y = false ->
  contains "///" y = false ->
  normalize_url y = Ok ("https://" +++ y)
  /\ is_valid_url y = Ok false
  /\ (truthy y = true -> all_chars plain_char y = true ->
      is_valid_url ("https://" +++ y) = Ok true).
Proof.
  intros Hy Hslash H3. split; [by apply normalize_url_host_only|].
  split.
  { by rewrite is_valid_url_unfold, (urlparse_host_only y Hy Hslash). }
  intros Hne Hplain.
  destruct (host_char_absent y Hy) as (Hsafe & _ & _ & _ & Hq & Hf).
  destruct (span_netloc y) as [n t] eqn:Hn.
  destruct (all_chars_span_netloc _ _ _ _ Hplain Hn) as [Hpn _].
  pose proof (span_netloc_app _ _ _ Hn) as (Hnt & Hnd & Ht).
  rewrite is_valid_url_unfold.
  rewrite (urlparse_shape _ _ ("https://" +++ y) "https" n t);
    [|..|done| |].
  - rewrite (netloc_checks_plain n Hpn), result_bind_unfold.
    destruct (split_tail (lower "https") t) as [[[pth prm] q] f].
    cbn [scheme netloc]. destruct n as [|c n]; [|done].
    (* the host is not empty: the URL starts with none of [/ ? #] *)
    cbn [String.append] in Hnt. subst t. destruct y as [|c s]; [done|].
    rewrite prefix_char in Hslash. cbn [contains] in Hq, Hf.
    rewrite prefix_char in Hq, Hf. unfold is_delim in Ht.
    apply orb_false_iff in Hq as [Hq _]. apply orb_false_iff in Hf as [Hf _].
    rewrite (Ascii.eqb_sym c), Hslash, (Ascii.eqb_sym c), Hq,
      (Ascii.eqb_sym c), Hf in Ht. done.
  - assert (clean ("https://" +++ y) = "https://" +++ y) as ->;
      [|by rewrite Hnt].
    apply (clean_id _check_bracketed_host normalize_NFKC "h"); [done|].
    cbn [all_chars]. by rewrite Hsafe.
  - done.
  - by destruct t.
Qed.

Lemma contains_triple_after_host a b :
  contains "/" a = false -> contains "///" (a +++ b) = contains "///" b.
Proof.
  induction a as [|c a IH]; [done|]. cbn [contains String.append].
  rewrite prefix_char, prefix_cons. intros [Hc Ha]%orb_false_iff.
  by rewrite Hc, IH.
Qed.

Lemma normalize_url_host_path host pth :
  truthy host = true -> all_chars host_char host = true ->
  contains "/" host = false ->
  all_chars host_char pth = true -> contains "///" pth = false ->
  normalize_url (host +++ pth) = Ok ("https://" +++ host +++ pth).
Proof.
  intros Hne Hh Hs Hp H3. apply normalize_url_host_only.
  - by rewrite all_chars_app, Hh, Hp.
  - destruct host as [|c a]; [done|]. cbn [String.append].
    rewrite prefix_char. cbn [contains] in Hs. rewrite prefix_char in Hs.
    by apply orb_false_iff in Hs as [-> _].
  - by rewrite contains_triple_after_host.
Qed.

(** *** A backslash right after the two slashes *)

Lemma scheme_char_plain c :
  contains (String c "") scheme_chars = true ->
  safe_char c = true /\ negb (Ascii.eqb c "\") = true.
Proof. destruct c as [[] [] [] [] [] [] [] []]; vm_compute; done. Qed.

Lemma alpha_not_blank c : is_ascii_alpha c = true -> blank_char c = false.
Proof. destruct c as [[] [] [] [] [] [] [] []]; vm_compute; done. Qed.

Lemma urlparse_after_scheme a r :
  scheme_ok a = true -> all_chars safe_char r = true ->
  urlparse (a +++ String ":" r) =
    if String.prefix "//" r then
      let '(n, t) := span_netloc (slice_from 2 r) in
      _ ← netloc_checks n;
      let '(pth, prm, q, f) := split_tail (lower a) t in
      Ok (mkParseResult (lower a) n pth prm q f)
    else
      let '(pth, prm, q, f) := split_tail (lower a) r in
      Ok (mkParseResult (lower a) "" pth prm q f).
Proof.
  intros Ha Hr.
  destruct (scheme_ok_facts a Ha) as (_ & _ & Hcolon & _).
  assert (clean (a +++ String ":" r) = a +++ String ":" r) as Hclean.
  { unfold scheme_ok in Ha.
    apply andb_true_iff in Ha as [[Hne Halpha]%andb_true_iff Hall].
    destruct a as [|c a]; [done|].
    cbn [String.get default from_option id] in Halpha.
    apply (clean_id _check_bracketed_host normalize_NFKC).
    - apply (alpha_not_blank c Halpha).
    - change (all_chars safe_char (String c a +++ String ":" r) = true).
      rewrite all_chars_app.
      change (all_chars safe_char (String ":" r)) with (all_chars safe_char r).
      rewrite Hr, andb_true_r.
      apply (all_chars_impl _ _ _ (fun c H => proj1 (scheme_char_plain c H))).
      done. }
  rewrite urlparse_eq, Hclean. unfold split_scheme.
  by rewrite (cut_app ":" a r Hcolon), Ha.
Qed.

(** X15: validity of the URL itself is not enough for the result of
    [normalize_url] to be valid. Whatever the scheme, [scheme://\] is a
    valid URL (its host is the backslash), and [normalize_url] turns it
    into a URL without host, which is not valid. *)
Theorem backslash_host_becomes_invalid a :
  scheme_ok a = true ->
  is_valid_url (a +++ "://\") = Ok true
  /\ exists u,
       normalize_url (a +++ "://\") = Ok u /\ is_valid_url u = Ok false.
Proof.
  intros Ha.
  destruct (scheme_ok_facts a Ha)
    as (Ha' & Hll & _ & _ & Hslash & c & s & Hc & _).
  assert (truthy (lower a) = true) as Hne by by rewrite Hc.
  assert (forall sch, split_tail sch "/" = ("/", "", "", "")) as Hst1.
  { intros sch. unfold split_tail. by destruct (in_list sch uses_params). }
  assert (forall sch, split_tail sch "" = ("", "", "", "")) as Hst0.
  { intros sch. unfold split_tail. by destruct (in_list sch uses_params). }
  split.
  - rewrite is_valid_url_unfold.
    change (a +++ "://\") with (a +++ String ":" "//\").
    rewrite (urlparse_after_scheme a "//\" Ha eq_refl).
    change (String.prefix "//" "//\") with true. cbv iota.
    change (span_netloc (slice_from 2 "//\")) with ("\", "").
    cbv iota beta.
    change (netloc_checks "\") with (@Ok unit tt).
    rewrite result_bind_unfold, Hst0. cbn [scheme netloc]. by rewrite Hne.
  - assert (replace "\" "/" (a +++ "://\") = a +++ String ":" "///") as Hrep.
    { rewrite replace_char_app. f_equal.
      apply replace_char_absent, contains_char_false.
      unfold scheme_ok in Ha. apply andb_true_iff in Ha as [_ Hall].
      apply (all_chars_impl _ _ _ (fun c H => proj2 (scheme_char_plain c H))).
      done. }
    unfold normalize_url. rewrite Hrep.
    rewrite (urlparse_after_scheme a "///" Ha eq_refl).
    change (String.prefix "//" "///") with true. cbv iota.
    change (span_netloc (slice_from 2 "///")) with ("", "/").
    cbv iota beta.
    change (netloc_checks "") with (@Ok unit tt).
    rewrite !result_bind_unfold, Hst1. cbn [scheme]. rewrite Hne. cbn [negb].
    unfold urlunparse, urlunsplit. cbn [truthy orb]. rewrite Hne.
    change (String.eqb (slice_to 2 "/") "//") with false.
    change (String.eqb (slice_to 1 "/") "/") with true.
    cbn [negb andb]. rewrite andb_true_r.
    destruct (in_list (lower a) uses_netloc).
    + exists (lower a +++ String ":" "//"). split.
      * f_equal. by rewrite collapse_prefix.
      * rewrite is_valid_url_unfold.
        rewrite (urlparse_after_scheme (lower a) "//" Ha' eq_refl).
        change (String.prefix "//" "//") with true. cbv iota.
        change (span_netloc (slice_from 2 "//")) with ("", "").
        cbv iota beta.
        change (netloc_checks "") with (@Ok unit tt).
        rewrite result_bind_unfold, Hst0. cbn [scheme netloc truthy].
        by rewrite andb_false_r.
    + exists (lower a +++ String ":" "/"). split.
      * f_equal. by rewrite collapse_prefix.
      * rewrite is_valid_url_unfold.
        rewrite (urlparse_after_scheme (lower a) "/" Ha' eq_refl).
        change (String.prefix "//" "/") with false. cbv iota.
        rewrite Hst1. cbn [scheme netloc truthy].
        by rewrite andb_false_r.
Qed.

End url_more.

Section client_urls.

Variable _check_bracketed_host : string -> result unit.
Variable normalize_NFKC : string -> string.
Variable os_name : platform.
Variable transport : request -> result response.
Variable json_dumps : value -> string.
Variable json_loads : string -> result value.

#[local] Abbreviation chat_completion :=
  (chat_completion _check_bracketed_host normalize_NFKC
                   transport (fun v => Ok (json_dumps v)) json_loads).
#[local] Abbreviation valid_models :=
  (valid_models _check_bracketed_host normalize_NFKC os_name
                transport json_loads).

Lemma models_url_bare_host host :
  truthy host = true ->
  all_chars host_char host = true ->
  contains "/" host = false ->
  normalize_url _check_bracketed_host normalize_NFKC
    (os_path_join os_name host "v1/models")
  = Ok ("https://" +++ host +++ "/v1/models").
Proof.
  intros Hne Hh Hs.
  rewrite <- (normalize_url_host_path _check_bracketed_host normalize_NFKC
                host "/v1/models") by done.
  assert (endswith "/" host = false) as He.
  { unfold endswith. by rewrite (proj2 (rfind_None "/" host) Hs). }
  destruct os_name; cbn [os_path_join].
  - unfold posixpath_join. by rewrite He, Hne.
  - destruct (host_char_absent host Hh)
      as (_ & Hback & Hcolon & _).
    assert (endswith "\" host = false) as Hb.
    { unfold endswith. by rewrite (proj2 (rfind_None "\" host) Hback). }
    assert (no_drive host = true) as Hd.
    { destruct host as [|c [|d r]]; [done| |].
      - cbn [contains] in Hback, Hs. rewrite prefix_char in Hback, Hs.
        apply orb_false_iff in Hback as [Hback _].
        apply orb_false_iff in Hs as [Hs _].
        unfold no_drive, is_sep. cbn [String.get from_option].
        by rewrite (Ascii.eqb_sym c), Hback, (Ascii.eqb_sym c), Hs.
      - cbn [contains] in Hback, Hs, Hcolon.
        rewrite !prefix_char in Hback, Hs, Hcolon.
        apply orb_false_iff in Hback as [Hback _].
        apply orb_false_iff in Hs as [Hs _].
        apply orb_false_iff in Hcolon as [_ [Hcolon _]%orb_false_iff].
        unfold no_drive, is_sep. cbn [String.get from_option].
        by rewrite (Ascii.eqb_sym c), Hback, (Ascii.eqb_sym c), Hs, Hcolon. }
    rewrite (ntpath_join_models host Hd), Hne, He, Hb. cbn [andb orb negb].
    apply normalize_url_replaced.
    rewrite !app_assoc, !replace_char_app. by f_equal.
Qed.

(** X14: with a bare host as base URL (not empty, characters above U+0020
    other than [\ : ; ? # /]), [valid_models] sends its one request to
    [https://host/v1/models], and [chat_completion] called with
    [host/v1/chat/completions] sends its one request to
    [https://host/v1/chat/completions]. *)
Theorem bare_host_endpoints api_key host messages model timeout options
    gpt_only :
  truthy host = true ->
  all_chars host_char host = true ->
  contains "/" host = false ->
  map r_url (calls (valid_models api_key host gpt_only))
    = ["https://" +++ host +++ "/v1/models"]
  /\ map r_url
       (calls (chat_completion api_key (host +++ "/v1/chat/completions")
                 messages model timeout options))
     = ["https://" +++ host +++ "/v1/chat/completions"].
Proof.
  intros Hne Hh Hs. split.
  - by rewrite valid_models_unfold, models_url_bare_host.
  - rewrite chat_completion_unfold.
    by rewrite normalize_url_host_path.
Qed.

End client_urls.

Lemma normalize_url_of_valid_witness :
  exists p u,
    Mock.urlparse (replace "\" "/" "HTTP://Host\a///b") = Ok p
    /\ Mock.normalize_url "HTTP://Host\a///b" = Ok u
    /\ u = scheme p +++ "://" +++ netloc p
             +++ replace "///" "//"
                   (join_tail (path p, params p, query p, fragment p))
    /\ Mock.urlparse u
       = Ok (mkParseResult (scheme p) (netloc p)
               (replace "///" "//" (path p)) (replace "///" "//" (params p))
               (replace "///" "//" (query p))
               (replace "///" "//" (fragment p)))
    /\ is_valid_url Mock.bracketed_host Mock.nfkc u = Ok true.
Proof.
  exact (normalize_url_of_valid Mock.bracketed_host Mock.nfkc
           "HTTP://Host\a///b" eq_refl).
Defined.

Lemma leading_blanks_ignored_witness :
  is_valid_url Mock.bracketed_host Mock.nfkc ("  " +++ "http://a.b")
    = is_valid_url Mock.bracketed_host Mock.nfkc "http://a.b"
  /\ Mock.normalize_url ("  " +++ "http://a.b")
     = Mock.normalize_url "http://a.b".
Proof.
  exact (leading_blanks_ignored Mock.bracketed_host Mock.nfkc
           "  " "http://a.b" eq_refl).
Defined.

Lemma tab_and_line_ends_ignored_witness :
  is_valid_url Mock.bracketed_host Mock.nfkc ("http://a" +++ String "009" ".b")
    = is_valid_url Mock.bracketed_host Mock.nfkc ("http://a" +++ ".b")
  /\ Mock.normalize_url ("http://a" +++ String "009" ".b")
     = Mock.normalize_url ("http://a" +++ ".b").
Proof.
  exact (tab_and_line_ends_ignored Mock.bracketed_host Mock.nfkc
           "http://a" "009"%char ".b" eq_refl).
Defined.

Lemma normalize_url_no_tab_or_line_end_witness :
  contains (String "009" "") "http://a.b/c" = false
  /\ contains (String "013" "") "http://a.b/c" = false
  /\ contains (String "010" "") "http://a.b/c" = false.
Proof.
  exact (normalize_url_no_tab_or_line_end Mock.bracketed_host Mock.nfkc
           ("http://a" +++ String "009" (".b/c" +++ String "010" ""))
           "http://a.b/c" eq_refl).
Defined.

Lemma plain_url_never_raises_witness :
  (exists b, is_valid_url Mock.bracketed_host Mock.nfkc "not a url" = Ok b)
  /\ (exists u, Mock.normalize_url "not a url" = Ok u).
Proof.
  exact (plain_url_never_raises Mock.bracketed_host Mock.nfkc
           "not a url" eq_refl).
Defined.

Lemma scheme_less_url_gets_https_witness :
  Mock.normalize_url "api.example.com/v1" = Ok "https://api.example.com/v1"
  /\ is_valid_url Mock.bracketed_host Mock.nfkc "api.example.com/v1"
     = Ok false
  /\ is_valid_url Mock.bracketed_host Mock.nfkc "https://api.example.com/v1"
     = Ok true.
Proof.
  destruct (scheme_less_url_gets_https Mock.bracketed_host Mock.nfkc
              "api.example.com/v1" eq_refl eq_refl eq_refl)
    as (H1 & H2 & H3).
  exact (conj H1 (conj H2 (H3 eq_refl eq_refl))).
Defined.

Lemma bare_host_endpoints_witness :
  map r_url (calls (Mock.valid_models "key" "api.example.com" true))
    = ["https://api.example.com/v1/models"]
  /\ map r_url
       (calls (Mock.chat_completion "key"
                 "api.example.com/v1/chat/completions" [] "gpt-4" 0 ∅))
     = ["https://api.example.com/v1/chat/completions"].
Proof.
  exact (bare_host_endpoints Mock.bracketed_host Mock.nfkc Posix Mock.transport
           Mock.json_dumps Mock.json_loads "key" "api.example.com"
           [] "gpt-4" 0%Z ∅ true eq_refl eq_refl eq_refl).
Defined.

Lemma backslash_host_becomes_invalid_witness :
  is_valid_url Mock.bracketed_host Mock.nfkc "http://\" = Ok true
  /\ exists u,
       Mock.normalize_url "http://\" = Ok u
       /\ is_valid_url Mock.bracketed_host Mock.nfkc u = Ok false.
Proof.
  exact (backslash_host_becomes_invalid Mock.bracketed_host Mock.nfkc
           "http" eq_refl).
Defined.

(** * Calls that send nothing *)

Section client_calls.

Variable _check_bracketed_host : string -> result unit.
Variable normalize_NFKC : string -> string.
Variable os_name : platform.
Variable transport : request -> result response.
Variable json_dumps : value -> result string.
Variable json_loads : string -> result value.

#[local] Abbreviation normalize_url :=
  (normalize_url _check_bracketed_host normalize_NFKC).
#[local] Abbreviation chat_completion :=
  (chat_completion _check_bracketed_host normalize_NFKC
                   transport json_dumps json_loads).
#[local] Abbreviation call_chat_completion :=
  (call_chat_completion _check_bracketed_host normalize_NFKC
                        transport json_dumps json_loads).
#[local] Abbreviation valid_models :=
  (valid_models _check_bracketed_host normalize_NFKC os_name
                transport json_loads).
#[local] Abbreviation os_path_join := (os_path_join os_name).

Ltac io_run :=
  rewrite io_bind_unfold;
  cbn [outcome calls pure raise requests_post requests_get app mret IO_ret].

Lemma call_chat_completion_steps api_key chat_url messages model timeout
    kwargs :
  call_chat_completion api_key chat_url messages model timeout kwargs =
    match bind_options kwargs with
    | Err e => mkIO [] (Err e)
    | Ok options =>
        chat_completion api_key chat_url messages model timeout options
    end.
Proof.
  unfold call_chat_completion. io_run.
  destruct (bind_options kwargs) as [options|e]; [|done].
  by destruct (chat_completion _ _ _ _ _ _).
Qed.

Lemma bind_options_free kwargs :
  (forall k, k ∈ chat_completion_parameters -> kwargs !! k = None) ->
  bind_options kwargs = Ok kwargs.
Proof.
  intros H. unfold bind_options, chat_completion_parameters.
  cbn [List.filter].
  repeat (rewrite bool_decide_eq_false_2;
          [|rewrite H; [by intros [? ?]|repeat constructor]]).
  done.
Qed.

Lemma bind_options_clash kwargs k :
  k ∈ chat_completion_parameters -> is_Some (kwargs !! k) ->
  exists msg, bind_options kwargs = Err (TypeError msg).
Proof.
  intros Hk Hsome. unfold bind_options.
  assert (In k (List.filter (fun k => bool_decide (is_Some (kwargs !! k)))
                            chat_completion_parameters)) as Hin.
  { apply filter_In. split; [by apply list_elem_of_In|].
    by apply bool_decide_eq_true_2. }
  destruct (List.filter _ _) as [|k' l]; [done|]. eauto.
Qed.

(** C1 (as amended): when the keywords of the call repeat no parameter
    name, they are the options, and the payload has exactly the keys
    [model], [messages] and the keys of the options; [model] and [messages]
    carry the arguments and every option key carries its option; this
    payload, serialised, is the body of the request. A call with a keyword
    that names a parameter is refused with [TypeError] before the body of
    [chat_completion] runs, and sends nothing: an argument and an option of
    the same name never meet. *)
Theorem payload_fields api_key chat_url messages model timeout kwargs :
  ((exists k, k ∈ chat_completion_parameters /\ is_Some (kwargs !! k)) ->
   calls (call_chat_completion api_key chat_url messages model timeout kwargs)
     = []
   /\ exists msg,
        outcome
          (call_chat_completion api_key chat_url messages model timeout kwargs)
        = Err (TypeError msg))
  /\ ((forall k, k ∈ chat_completion_parameters -> kwargs !! k = None) ->
      call_chat_completion api_key chat_url messages model timeout kwargs
        = chat_completion api_key chat_url messages model timeout kwargs
      /\ dom (payload messages model kwargs)
         = {["model"]} ∪ {["messages"]} ∪ dom kwargs
      /\ payload messages model kwargs !! "model" = Some (VStr model)
      /\ payload messages model kwargs !! "messages" = Some (VList messages)
      /\ (forall k v, kwargs !! k = Some v ->
            payload messages model kwargs !! k = Some v)
      /\ (forall r,
            r ∈ calls
                  (chat_completion api_key chat_url messages model timeout
                     kwargs) ->
            exists data,
              json_dumps (VDict (payload messages model kwargs)) = Ok data
              /\ r_data r = Some data)).
Proof.
  rewrite call_chat_completion_steps. split.
  - intros (k & Hk & Hsome).
    by destruct (bind_options_clash kwargs k Hk Hsome) as [msg ->]; eauto.
  - intros Hfree. rewrite (bind_options_free kwargs Hfree).
    destruct (payload_keys messages model kwargs) as (Hdom & Hopt & Hmo & Hme).
    repeat split; try done.
    + apply Hmo, Hfree. repeat constructor.
    + apply Hme, Hfree. repeat constructor.
    + intros r. rewrite chat_completion_steps.
      destruct (normalize_url chat_url) as [u|e];
        [|by intros ?%elem_of_nil].
      destruct (json_dumps _) as [data|e]; [|by intros ?%elem_of_nil].
      cbv zeta. cbn [calls]. intros ->%list_elem_of_singleton. eauto.
Qed.

(** X1: each call sends at most one request. [chat_completion] sends none
    exactly when the normalisation of the URL raises or, after it,
    [json.dumps] raises on the payload; [valid_models] sends none exactly
    when the normalisation of the models URL raises. The exception is then
    the outcome of the call. *)
Theorem one_request_at_most api_key url messages model timeout options
    gpt_only :
  (length (calls (chat_completion api_key url messages model timeout options))
     <= 1
   /\ (calls (chat_completion api_key url messages model timeout options) = []
       <-> (exists e, normalize_url url = Err e)
           \/ (exists e,
                 json_dumps (VDict (payload messages model options)) = Err e))
   /\ (forall e, normalize_url url = Err e ->
         outcome (chat_completion api_key url messages model timeout options)
           = Err e)
   /\ (forall u e,
         normalize_url url = Ok u ->
         json_dumps (VDict (payload messages model options)) = Err e ->
         outcome (chat_completion api_key url messages model timeout options)
           = Err e))
  /\ (length (calls (valid_models api_key url gpt_only)) <= 1
     /\ (calls (valid_models api_key url gpt_only) = []
         <-> exists e, normalize_url (os_path_join url "v1/models") = Err e)
     /\ (forall e, normalize_url (os_path_join url "v1/models") = Err e ->
           outcome (valid_models api_key url gpt_only) = Err e)).
Proof.
  rewrite chat_completion_steps, valid_models_unfold. split.
  - destruct (normalize_url url) as [u|e].
    + destruct (json_dumps _) as [data|e];
        cbv zeta; cbn [calls outcome length].
      * split; [lia|]. split; [|done]. split; [done|].
        by intros [[e [=]]|[e [=]]].
      * split; [lia|]. split; [split; eauto|]. split; [done|].
        by intros u' e' _ [= <-].
    + cbn [calls outcome length].
      split; [lia|]. split; [split; eauto|]. split; [|done].
      by intros e' [= <-].
  - destruct (normalize_url (os_path_join url "v1/models")) as [u|e];
      cbv zeta; cbn [calls outcome length].
    + repeat split; try done; try lia. by intros [e [=]].
    + repeat split; try lia; eauto. by intros e' [= <-].
Qed.

End client_calls.

Lemma model_keyword_is_refused :
  outcome (Mock.call_chat_completion "key" "api.example.com" [] "gpt-4" 0
             {["model" := VStr "other"]})
    = Err (TypeError
             "chat_completion() got multiple values for argument 'model'")
  /\ calls (Mock.call_chat_completion "key" "api.example.com" [] "gpt-4" 0
              {["model" := VStr "other"]})
     = [].
Proof. split; reflexivity. Qed.

Lemma payload_fields_witness :
  Mock.call_chat_completion "key" "api.example.com" [] "gpt-4" 0
    {["temperature" := VInt 1]}
  = Mock.chat_completion "key" "api.example.com" [] "gpt-4" 0
      {["temperature" := VInt 1]}
  /\ payload [] "gpt-4" {["temperature" := VInt 1]} !! "model"
     = Some (VStr "gpt-4")
  /\ payload [] "gpt-4" {["temperature" := VInt 1]} !! "temperature"
     = Some (VInt 1)
  /\ exists msg,
       outcome (Mock.call_chat_completion "key" "api.example.com" [] "gpt-4"
                  0 {["messages" := VList []]})
       = Err (TypeError msg).
Proof.
  destruct (proj2 (payload_fields Mock.bracketed_host Mock.nfkc
                     Mock.transport Mock.dumps Mock.json_loads
                     "key" "api.example.com" [] "gpt-4" 0%Z
                     {["temperature" := VInt 1]}))
    as (Hcall & _ & Hmodel & _ & Hopt & _).
  { intros k Hk.
    repeat (apply elem_of_cons in Hk as [->|Hk]; [reflexivity|]).
    by apply elem_of_nil in Hk. }
  destruct (proj1 (payload_fields Mock.bracketed_host Mock.nfkc
                     Mock.transport Mock.dumps Mock.json_loads
                     "key" "api.example.com" [] "gpt-4" 0%Z
                     {["messages" := VList []]}))
    as (_ & Herr).
  { exists "messages". split; [repeat constructor|by eexists]. }
  split; [exact Hcall|]. split; [exact Hmodel|].
  split; [apply Hopt; reflexivity|exact Herr].
Defined.

Lemma one_request_at_most_witness :
  calls (chat_completion Mock.bracketed_host Mock.nfkc Mock.transport
           Stub.unserialisable Mock.json_loads "key" "api.example.com" []
           "gpt-4" 0 ∅)
    = []
  /\ outcome (chat_completion Mock.bracketed_host Mock.nfkc Mock.transport
                Stub.unserialisable Mock.json_loads "key" "api.example.com"
                [] "gpt-4" 0 ∅)
     = Err (TypeError "Object of type bytes is not JSON serializable").
Proof.
  destruct (one_request_at_most Mock.bracketed_host Mock.nfkc Posix
              Mock.transport Stub.unserialisable Mock.json_loads
              "key" "api.example.com" [] "gpt-4" 0%Z ∅ true)
    as [(_ & Hnone & _ & Herr) _].
  split.
  - apply Hnone. right. eexists. reflexivity.
  - exact (Herr "https://api.example.com" _ eq_refl eq_refl).
Defined.

(** * The docstring of [normalize_url] *)

Section url_docstring.

#[local] Arguments String.append !s1 s2 : simpl nomatch.

Variable _check_bracketed_host : string -> result unit.
Variable normalize_NFKC : string -> string.

#[local] Abbreviation urlparse :=
  (urlparse _check_bracketed_host normalize_NFKC).
#[local] Abbreviation normalize_url :=
  (normalize_url _check_bracketed_host normalize_NFKC).
#[local] Abbreviation is_valid_url :=
  (is_valid_url _check_bracketed_host normalize_NFKC).
#[local] Abbreviation netloc_checks :=
  (netloc_checks _check_bracketed_host normalize_NFKC).






End url_docstring.



(** On Windows a base URL that ends in a backslash is joined without a
    separator, and the slash added to it stays in the URL. *)
Lemma windows_backslash_base :
  r_url <$> calls (valid_models Mock.bracketed_host Mock.nfkc Windows
                     Mock.transport Mock.json_loads
                     "key" "api.example.com\" true)
    = ["https://api.example.com/v1/models"]
  /\ r_url <$> calls (valid_models Mock.bracketed_host Mock.nfkc Windows
                        Mock.transport Mock.json_loads
                        "key" ("api.example.com\" +++ "/") true)
     = ["https://api.example.com//v1/models"].
Proof. split; reflexivity. Qed.
